(** * Condition evaluation of the typebot conditions package

    A shallow embedding of [executeCondition] and its helpers, in the two
    variants the repository holds:

    - [Packages]: [src/packages/conditions/src/executeCondition.ts], whose
      STRING_SIMILARITY case is a cosine similarity over character
      frequencies with threshold 0.5;
    - [Part000]: [src/unnamed/part_000], whose STRING_SIMILARITY case is
      [compararValores], a normalised Levenshtein similarity with
      threshold 0.8.

    JavaScript values are modelled as follows.  A string is a [string]; one
    [ascii] stands for one code unit.  [null] and [undefined] of a
    [string | null] are [None].  A number is an IEEE 754 binary64 value,
    [spec_float] with precision 53 and maximal exponent 1024, so that [>],
    [<], [/] and [Math.sqrt] round as the engine does.  An exception is the
    [Throw] case of [completion]. *)

From Stdlib Require Import ZArith List String Ascii Bool Lia PeanoNat.
From Stdlib Require Import SpecFloat.
Import ListNotations.

Local Open Scope string_scope.
Local Open Scope list_scope.

(** ** Completions: a value or a thrown exception *)

Inductive Error : Type :=
| SyntaxError
| TypeError.

Inductive completion (A : Type) : Type :=
| Normal (a : A)
| Throw (e : Error).

Arguments Normal {A} a.
Arguments Throw {A} e.

(** [Array.prototype.every]: left to right, stops at the first falsy result;
    an exception of the callback propagates. *)
Fixpoint every {A : Type} (f : A -> completion bool) (l : list A)
  : completion bool :=
  match l with
  | [] => Normal true
  | x :: r =>
      match f x with
      | Normal true => every f r
      | Normal false => Normal false
      | Throw e => Throw e
      end
  end.

(** [Array.prototype.some]: left to right, stops at the first truthy result. *)
Fixpoint some {A : Type} (f : A -> completion bool) (l : list A)
  : completion bool :=
  match l with
  | [] => Normal false
  | x :: r =>
      match f x with
      | Normal false => some f r
      | Normal true => Normal true
      | Throw e => Throw e
      end
  end.

(** ** Numbers *)

Module JSNumber.

Definition number : Type := spec_float.

Definition prec : Z := 53.
Definition emax : Z := 1024.

(** The number of a non-negative integer (a length, a count, a distance). *)
Definition ofNat (n : nat) : number :=
  binary_normalize prec emax (Z.of_nat n) 0 false.

Definition zero : number := S754_zero false.

Definition add (x y : number) : number := SFadd prec emax x y.
Definition mul (x y : number) : number := SFmul prec emax x y.
Definition div (x y : number) : number := SFdiv prec emax x y.
Definition sqrt (x : number) : number := SFsqrt prec emax x.

(** [x > y] and [x < y]: false as soon as one side is NaN. *)
Definition gt (x y : number) : bool := SFltb y x.
Definition lt (x y : number) : bool := SFltb x y.

(** [x === y] on numbers. *)
Definition strictEq (x y : number) : bool := SFeqb x y.

Definition isNaN (x : number) : bool :=
  match x with
  | S754_nan => true
  | _ => false
  end.

(** The literals [0.5] and [0.8]: the binary64 values nearest to 1/2 and
    to 4/5. *)
Definition lit_0_5 : number := S754_finite false 4503599627370496 (-53).
Definition lit_0_8 : number := S754_finite false 7205759403792794 (-53).

End JSNumber.

Import JSNumber.

(** ** Strings *)

Module JSString.

(** [s.includes(t)] *)
Fixpoint includes (s t : string) : bool :=
  String.prefix t s ||
  match s with
  | EmptyString => false
  | String _ s' => includes s' t
  end.

(** [s.startsWith(t)] *)
Definition startsWith (s t : string) : bool := String.prefix t s.

(** [s.endsWith(t)] *)
Definition endsWith (s t : string) : bool :=
  (String.length t <=? String.length s)%nat &&
  String.eqb (String.substring (String.length s - String.length t)
                               (String.length t) s) t.

(** [s.split(sep)] for a separator of one code unit. *)
Fixpoint split (sep : ascii) (s : string) : list string :=
  match s with
  | EmptyString => [EmptyString]
  | String c r =>
      if Ascii.eqb c sep then EmptyString :: split sep r
      else match split sep r with
           | h :: t => String c h :: t
           | [] => [String c EmptyString]
           end
  end.

(** [!s] for [s : string | null]: null and the empty string are falsy. *)
Definition falsy (s : option string) : bool :=
  match s with
  | None => true
  | Some EmptyString => true
  | Some _ => false
  end.

(** [a === b] for [a, b : string | null]. *)
Definition strictEq (a b : option string) : bool :=
  match a, b with
  | None, None => true
  | Some x, Some y => String.eqb x y
  | _, _ => false
  end.

End JSString.

(** ** The runtime and the collaborators *)

(** The built-ins of the JavaScript engine whose result depends on Unicode
    tables, on the number and date grammars or on the regular-expression
    engine.  [RegExp_new pattern flags] is [new RegExp(pattern, flags)]:
    [None] when the constructor throws a SyntaxError. *)
Class JSRuntime : Type := {
  toLowerCase : string -> string;
  trim : string -> string;
  normalize : string -> string;
  Number : string -> number;
  Date_parse : string -> number;
  RegExp : Type;
  RegExp_new : string -> option string -> option RegExp;
  RegExp_test : RegExp -> string -> bool
}.

(** ** Data model *)

(** The type [Variable] of the variables package, as far as this code reads
    it ([Variable] is a reserved word here, hence the underscore).
    [VariableValue] is [Variable["value"]] with [undefined] excluded;
    [null] and [undefined] are both [VNull], as every read of a value goes
    through [?? null] or [??].  The elements of a list are [string | null],
    the type the comparison callbacks take. *)
Inductive VariableValue : Type :=
| VNull
| VString (s : string)
| VList (l : list (option string)).

Record Variable_ : Type := {
  id : string;
  value : VariableValue
}.

Inductive ComparisonOperators : Type :=
| EQUAL
| NOT_EQUAL
| CONTAINS
| NOT_CONTAINS
| GREATER
| LESS
| IS_SET
| IS_EMPTY
| STARTS_WITH
| ENDS_WITH
| MATCHES_REGEX
| NOT_MATCH_REGEX
| STRING_SIMILARITY.

Inductive LogicalOperator : Type :=
| OR
| AND.

Record Comparison : Type := {
  variableId : option string;
  comparisonOperator : option ComparisonOperators;
  comparisonValue : option string
}.

Record Condition : Type := {
  logicalOperator : option LogicalOperator;
  comparisons : option (list Comparison)
}.

(** The two functions imported from the variables package.  Their code is
    not part of the conditions package: they are taken as they are typed at
    the call sites, a variable or nothing, and a string. *)
Class Collaborators : Type := {
  findUniqueVariable : list Variable_ -> option string -> option Variable_;
  parseVariables : list Variable_ -> option string -> string
}.

(** Modelled from the spec: [isDefined] and [isNotDefined] of the lib
    package, which the spec reads as "defined" and "null/absent". *)
Definition isDefined (v : VariableValue) : bool :=
  match v with
  | VNull => false
  | _ => true
  end.

Definition isNotDefined (v : VariableValue) : bool := negb (isDefined v).

(** [v.length] for a defined value. *)
Definition lengthOf (v : VariableValue) : nat :=
  match v with
  | VNull => 0
  | VString s => String.length s
  | VList l => List.length l
  end.

Inductive ReduceType : Type :=
| Every
| Some_.

(** ** Code shared by the two variants *)

Section Shared.

Context {rt : JSRuntime}.

(** [compare(compareStrings, a, b, type)] *)
Definition compare
  (compareStrings : option string -> option string -> completion bool)
  (a b : VariableValue) (type : ReduceType) : completion bool :=
  match a, b with
  | VList la, VList lb =>
      match type with
      | Every => every (fun a => every (fun b => compareStrings a b) lb) la
      | Some_ => some (fun a => some (fun b => compareStrings a b) lb) la
      end
  | VList la, _ =>
      let b' := match b with VString s => Some s | _ => None end in
      match type with
      | Every => every (fun a => compareStrings a b') la
      | Some_ => some (fun a => compareStrings a b') la
      end
  | _, VList lb =>
      let a' := match a with VString s => Some s | _ => None end in
      match type with
      | Every => every (fun b => compareStrings a' b) lb
      | Some_ => some (fun b => compareStrings a' b) lb
      end
  | _, _ =>
      let a' := match a with VString s => Some s | _ => None end in
      let b' := match b with VString s => Some s | _ => None end in
      compareStrings a' b'
  end.

(** [parseDateOrNumber(value)] *)
Definition parseDateOrNumber (value : string) : number :=
  let parsed := Number value in
  if isNaN parsed then Date_parse value else parsed.

(** [preprocessRegex(regex)].  The regular expression it matches [regex]
    against reads: a slash, one or more characters other than line
    terminators (group 1, greedy), a slash, any number of the letters
    g, i, m, u, y (group 2), the end of the string.

    [isLineTerminator] is what the dot refuses.  [closing s] reads [s], the
    text after an opening slash, as group 1 (possibly empty here), a slash
    and group 2, with group 1 as long as possible; [regexWithFlags] tries
    the opening slashes from the left and wants group 1 non-empty. *)
Definition isLineTerminator (c : ascii) : bool :=
  Ascii.eqb c "010"%char || Ascii.eqb c "013"%char.

Definition isFlag (c : ascii) : bool :=
  Ascii.eqb c "g"%char || Ascii.eqb c "i"%char || Ascii.eqb c "m"%char ||
  Ascii.eqb c "u"%char || Ascii.eqb c "y"%char.

Fixpoint allFlags (s : string) : bool :=
  match s with
  | EmptyString => true
  | String c r => isFlag c && allFlags r
  end.

Fixpoint closing (s : string) : option (string * string) :=
  match s with
  | EmptyString => None
  | String c r =>
      match (if isLineTerminator c then None else closing r) with
      | Some (p, f) => Some (String c p, f)
      | None =>
          if Ascii.eqb c "/"%char && allFlags r
          then Some (EmptyString, r)
          else None
      end
  end.

Fixpoint regexWithFlags (s : string) : option (string * string) :=
  match s with
  | EmptyString => None
  | String c r =>
      let here :=
        if Ascii.eqb c "/"%char then
          match closing r with
          | Some (String a p, f) => Some (String a p, f)
          | _ => None
          end
        else None in
      match here with
      | Some m => Some m
      | None => regexWithFlags r
      end
  end.

Record PreprocessedRegex : Type := {
  pattern : string;
  flags : option string
}.

Definition preprocessRegex (regex : string) : PreprocessedRegex :=
  match regexWithFlags regex with
  | Some (p, f) => {| pattern := p; flags := Some f |}
  | None => {| pattern := regex; flags := None |}
  end.

(** [new RegExp(pattern, flags).test(a)] *)
Definition newRegExpTest (r : PreprocessedRegex) (a : string)
  : completion bool :=
  match RegExp_new (pattern r) (flags r) with
  | Some re => Normal (RegExp_test re a)
  | None => Throw SyntaxError
  end.

(** [a.toLowerCase().trim().normalize()] *)
Definition lowerTrimNormalize (a : string) : string :=
  normalize (trim (toLowerCase a)).

(** *** The callbacks handed to [compare], in the order of the switch *)

(** [equal] of the CONTAINS case on an array. *)
Definition equal (a b : option string) : bool :=
  match a, b with
  | Some a, Some b => String.eqb (normalize a) (normalize b)
  | _, _ => negb (JSString.strictEq a b)
  end.

Definition contains (a b : option string) : bool :=
  match a, b with
  | Some a, Some b =>
      if JSString.falsy (Some b) || JSString.falsy (Some a) then false
      else JSString.includes (lowerTrimNormalize a) (lowerTrimNormalize b)
  | _, _ => false
  end.

Definition notEqual (a b : option string) : bool :=
  match a, b with
  | Some a, Some b => negb (String.eqb (normalize a) (normalize b))
  | _, _ => negb (JSString.strictEq a b)
  end.

Definition notContains (a b : option string) : bool :=
  match a, b with
  | Some a, Some b =>
      if JSString.falsy (Some b) || JSString.falsy (Some a) then true
      else negb (JSString.includes (lowerTrimNormalize a)
                                   (lowerTrimNormalize b))
  | _, _ => true
  end.

(** The arrow function of the EQUAL case. *)
Definition equalStrings (a b : option string) : bool :=
  match a, b with
  | Some a, Some b => String.eqb (normalize a) (normalize b)
  | _, _ => JSString.strictEq a b
  end.

(** The arrow function of the NOT_EQUAL case. *)
Definition notEqualStrings (a b : option string) : bool :=
  match a, b with
  | Some a, Some b => negb (String.eqb (normalize a) (normalize b))
  | _, _ => negb (JSString.strictEq a b)
  end.

Definition startsWith (a b : option string) : bool :=
  match a, b with
  | Some a, Some b =>
      if JSString.falsy (Some b) || JSString.falsy (Some a) then false
      else JSString.startsWith (lowerTrimNormalize a) (lowerTrimNormalize b)
  | _, _ => false
  end.

Definition endsWith (a b : option string) : bool :=
  match a, b with
  | Some a, Some b =>
      if JSString.falsy (Some b) || JSString.falsy (Some a) then false
      else JSString.endsWith (lowerTrimNormalize a) (lowerTrimNormalize b)
  | _, _ => false
  end.

(** [matchesRegex] of the MATCHES_REGEX case. *)
Definition matchesRegex (a b : option string) : completion bool :=
  match a, b with
  | Some a, Some b =>
      if JSString.falsy (Some b) || JSString.falsy (Some a) then Normal false
      else
        let regex := preprocessRegex b in
        if JSString.falsy (Some (pattern regex)) then Normal false
        else newRegExpTest regex a
  | _, _ => Normal false
  end.

(** [matchesRegex] of the NOT_MATCH_REGEX case. *)
Definition matchesRegex_NOT_MATCH (a b : option string) : completion bool :=
  match a, b with
  | Some a, Some b =>
      if JSString.falsy (Some b) || JSString.falsy (Some a) then Normal false
      else
        let regex := preprocessRegex b in
        if JSString.falsy (Some (pattern regex)) then Normal true
        else
          match newRegExpTest regex a with
          | Normal r => Normal (negb r)
          | Throw e => Throw e
          end
  | _, _ => Normal false
  end.

(** A callback that cannot throw. *)
Definition pure (f : option string -> option string -> bool)
  (a b : option string) : completion bool :=
  Normal (f a b).

(** The GREATER and LESS cases, [rel] being [>] or [<]. *)
Definition ordering (rel : number -> number -> bool)
  (inputValue value : VariableValue) : bool :=
  if isNotDefined inputValue || isNotDefined value then false
  else
    match inputValue, value with
    | VString i, VString v => rel (parseDateOrNumber i) (parseDateOrNumber v)
    | VString i, _ => rel (Number i) (ofNat (lengthOf value))
    | _, VString v => rel (ofNat (lengthOf inputValue)) (Number v)
    | _, _ => rel (ofNat (lengthOf inputValue)) (ofNat (lengthOf value))
    end.

(** The strings and nulls a callback meets on one side of [compare]. *)
Definition elementsOf (v : VariableValue) : list (option string) :=
  match v with
  | VNull => [None]
  | VString s => [Some s]
  | VList l => l
  end.

(** The target [b] yields a regular expression that the constructor
    accepts. *)
Definition compiles (b : string) : Prop :=
  exists re,
    RegExp_new (pattern (preprocessRegex b)) (flags (preprocessRegex b))
    = Some re.

(** The two constants [executeComparison] computes before its switch. *)
Section Resolution.

Context {co : Collaborators}.

(** [variables.find((v) => v.id === comparison.variableId)?.value ?? null] *)
Definition inputValueOf (variables : list Variable_) (variableId : string)
  : VariableValue :=
  match List.find (fun v => String.eqb (id v) variableId) variables with
  | Some v => value v
  | None => VNull
  end.

(** The right-hand side [value], from [comparison.value]. *)
Definition valueOf (variables : list Variable_) (text : option string)
  : VariableValue :=
  if JSString.strictEq text (Some "undefined") ||
     JSString.strictEq text (Some "null")
  then VNull
  else
    match findUniqueVariable variables text with
    | Some v =>
        match value v with
        | VNull => VString (parseVariables variables text)
        | defined => defined
        end
    | None => VString (parseVariables variables text)
    end.

(** What the totality of a comparison rests on: its regular expressions
    compile, and the right-hand side of STRING_SIMILARITY is a string. *)
Definition patternsCompile (variables : list Variable_) (c : Comparison)
  : Prop :=
  comparisonOperator c = Some MATCHES_REGEX \/
  comparisonOperator c = Some NOT_MATCH_REGEX ->
  forall s,
    In (Some s) (elementsOf (valueOf variables (comparisonValue c))) ->
    compiles s.

Definition similarityOnString (variables : list Variable_) (c : Comparison)
  : Prop :=
  comparisonOperator c = Some STRING_SIMILARITY ->
  exists s, valueOf variables (comparisonValue c) = VString s.

End Resolution.

End Shared.

(** ** src/packages/conditions/src/executeCondition.ts *)

Module Packages.

(** An object used as a map from characters to counts: its own properties
    in insertion order. *)
Definition Bag : Type := list (ascii * nat).

Fixpoint increment (char : ascii) (bag : Bag) : Bag :=
  match bag with
  | [] => [(char, 1)]
  | (k, n) :: r =>
      if Ascii.eqb k char then (k, n + 1) :: r
      else (k, n) :: increment char r
  end.

Fixpoint lookup (char : ascii) (bag : Bag) : option nat :=
  match bag with
  | [] => None
  | (k, n) :: r => if Ascii.eqb k char then Some n else lookup char r
  end.

(** The order in which [for ... in] visits the properties of an object whose
    keys are single characters: the keys that are array indices, "0" to
    "9", in ascending order, then the other keys in insertion order. *)
Definition isIndexKey (c : ascii) : bool :=
  (48 <=? nat_of_ascii c)%nat && (nat_of_ascii c <=? 57)%nat.

Definition indexKeys : list ascii :=
  ["0"; "1"; "2"; "3"; "4"; "5"; "6"; "7"; "8"; "9"]%char.

Definition forIn (keys : list ascii) : list ascii :=
  List.filter (fun d => List.existsb (Ascii.eqb d) keys) indexKeys ++
  List.filter (fun k => negb (isIndexKey k)) keys.

(** [allChars[char] = true] on the keys of [allChars]. *)
Definition setKey (keys : list ascii) (char : ascii) : list ascii :=
  if List.existsb (Ascii.eqb char) keys then keys else keys ++ [char].

Section ExecuteCondition.

Context {rt : JSRuntime} {co : Collaborators}.

Definition getBagOfNumbers (str : string) : Bag :=
  let str := toLowerCase str in
  List.fold_left (fun bag char => increment char bag)
                 (list_ascii_of_string str) [].

Definition compareStringsBagOfNumbers (str1 str2 : string) : number :=
  let bag1 := getBagOfNumbers str1 in
  let bag2 := getBagOfNumbers str2 in
  let allChars := List.fold_left setKey (forIn (List.map fst bag1)) [] in
  let allChars := List.fold_left setKey (forIn (List.map fst bag2)) allChars in
  let count (bag : Bag) (char : ascii) : number :=
    match lookup char bag with
    | Some n => ofNat n
    | None => zero
    end in
  let vec1 := List.map (count bag1) (forIn allChars) in
  let vec2 := List.map (count bag2) (forIn allChars) in
  let dotProduct :=
    List.fold_left (fun sum p => add sum (mul (fst p) (snd p)))
                   (List.combine vec1 vec2) zero in
  let magnitude1 :=
    sqrt (List.fold_left (fun sum val => add sum (mul val val)) vec1 zero) in
  let magnitude2 :=
    sqrt (List.fold_left (fun sum val => add sum (mul val val)) vec2 zero) in
  if JSNumber.strictEq magnitude1 zero || JSNumber.strictEq magnitude2 zero
  then zero
  else div dotProduct (mul magnitude1 magnitude2).

(** The loop of the STRING_SIMILARITY case: [maxSimilarity] after the
    candidates [values]. *)
Definition maxSimilarityOf (inputValue : string) (values : list string)
  : number :=
  List.fold_left
    (fun maxSimilarity val =>
       let similarity := compareStringsBagOfNumbers inputValue val in
       if gt similarity maxSimilarity then similarity else maxSimilarity)
    values zero.

Definition executeComparison (variables : list Variable_)
  (comparison : Comparison) : completion bool :=
  match variableId comparison with
  | None => Normal false
  | Some EmptyString => Normal false
  | Some variableId =>
      let inputValue := inputValueOf variables variableId in
      let value := valueOf variables (comparisonValue comparison) in
      match comparisonOperator comparison with
      | None => Normal false
      | Some CONTAINS =>
          match inputValue with
          | VList _ => compare (pure equal) inputValue value Some_
          | _ => compare (pure contains) inputValue value Some_
          end
      | Some NOT_CONTAINS =>
          match inputValue with
          | VList _ => compare (pure notEqual) inputValue value Every
          | _ => compare (pure notContains) inputValue value Every
          end
      | Some EQUAL => compare (pure equalStrings) inputValue value Every
      | Some NOT_EQUAL => compare (pure notEqualStrings) inputValue value Every
      | Some GREATER => Normal (ordering gt inputValue value)
      | Some LESS => Normal (ordering lt inputValue value)
      | Some IS_SET =>
          Normal (isDefined inputValue && (0 <? lengthOf inputValue)%nat)
      | Some IS_EMPTY =>
          Normal (isNotDefined inputValue || (lengthOf inputValue =? 0)%nat)
      | Some STARTS_WITH => compare (pure startsWith) inputValue value Every
      | Some ENDS_WITH => compare (pure endsWith) inputValue value Every
      | Some MATCHES_REGEX => compare matchesRegex inputValue value Some_
      | Some NOT_MATCH_REGEX =>
          compare matchesRegex_NOT_MATCH inputValue value Every
      | Some STRING_SIMILARITY =>
          match inputValue with
          | VString inputValue =>
              match value with
              | VString value =>
                  let values := JSString.split "|"%char value in
                  Normal (gt (maxSimilarityOf inputValue values) lit_0_5)
              | _ => Throw TypeError
              end
          | _ => Normal false
          end
      end
  end.

Definition executeCondition (condition : Condition)
  (variables : list Variable_) : completion bool :=
  match comparisons condition with
  | None => Normal false
  | Some comparisons =>
      match logicalOperator condition with
      | Some AND => every (executeComparison variables) comparisons
      | _ => some (executeComparison variables) comparisons
      end
  end.

End ExecuteCondition.

End Packages.

(** ** src/unnamed/part_000 *)

Module Part000.

(** [levenshtein(str1, str2)].  The matrix is built row by row: [nextRow]
    computes the cells [matrix[i][j]] for [j >= 1] from the row above,
    [left] being [matrix[i][j - 1]]. *)
Fixpoint nextRow (c : ascii) (str2 : list ascii) (above : list nat)
  (left : nat) : list nat :=
  match str2, above with
  | d :: str2', diag :: ((up :: _) as above') =>
      let costoSustitucion := if Ascii.eqb c d then 0 else 1 in
      let cell :=
        Nat.min (Nat.min (up + 1) (left + 1)) (diag + costoSustitucion) in
      cell :: nextRow c str2' above' cell
  | _, _ => []
  end.

Fixpoint rows (str1 str2 : list ascii) (i : nat) (above : list nat)
  : list nat :=
  match str1 with
  | [] => above
  | c :: str1' => rows str1' str2 (S i) (S i :: nextRow c str2 above (S i))
  end.

Definition levenshtein (str1 str2 : string) : nat :=
  let n := String.length str2 in
  let row := rows (list_ascii_of_string str1) (list_ascii_of_string str2)
                  0 (List.seq 0 (S n)) in
  List.nth n row 0.

Definition compareStringsBagOfNumbers (str1 str2 : string) : number :=
  let distancia := levenshtein str1 str2 in
  let maxLength := Nat.max (String.length str1) (String.length str2) in
  div (SFsub prec emax (ofNat maxLength) (ofNat distancia)) (ofNat maxLength).

Definition maxSimilarityOf (inputValue : string) (values : list string)
  : number :=
  List.fold_left
    (fun maxSimilarity val =>
       let similarity := compareStringsBagOfNumbers inputValue val in
       if gt similarity maxSimilarity then similarity else maxSimilarity)
    values zero.

(** [compararValores(inputValue, value)]; the calls of [console.log] are
    left out. *)
Definition compararValores (inputValue value : VariableValue) : bool :=
  match inputValue with
  | VString inputValue =>
      match value with
      | VString value =>
          if JSString.falsy (Some value) then false
          else
            let values := JSString.split "|"%char value in
            gt (maxSimilarityOf inputValue values) lit_0_8
      | _ => false
      end
  | _ => false
  end.

Section ExecuteCondition.

Context {rt : JSRuntime} {co : Collaborators}.

Definition executeComparison (variables : list Variable_)
  (comparison : Comparison) : completion bool :=
  match variableId comparison with
  | None => Normal false
  | Some EmptyString => Normal false
  | Some variableId =>
      let inputValue := inputValueOf variables variableId in
      let value := valueOf variables (comparisonValue comparison) in
      match comparisonOperator comparison with
      | None => Normal false
      | Some CONTAINS =>
          match inputValue with
          | VList _ => compare (pure equal) inputValue value Some_
          | _ => compare (pure contains) inputValue value Some_
          end
      | Some NOT_CONTAINS =>
          match inputValue with
          | VList _ => compare (pure notEqual) inputValue value Every
          | _ => compare (pure notContains) inputValue value Every
          end
      | Some EQUAL => compare (pure equalStrings) inputValue value Every
      | Some NOT_EQUAL => compare (pure notEqualStrings) inputValue value Every
      | Some GREATER => Normal (ordering gt inputValue value)
      | Some LESS => Normal (ordering lt inputValue value)
      | Some IS_SET =>
          Normal (isDefined inputValue && (0 <? lengthOf inputValue)%nat)
      | Some IS_EMPTY =>
          Normal (isNotDefined inputValue || (lengthOf inputValue =? 0)%nat)
      | Some STARTS_WITH => compare (pure startsWith) inputValue value Every
      | Some ENDS_WITH => compare (pure endsWith) inputValue value Every
      | Some MATCHES_REGEX => compare matchesRegex inputValue value Some_
      | Some NOT_MATCH_REGEX =>
          compare matchesRegex_NOT_MATCH inputValue value Every
      | Some STRING_SIMILARITY => Normal (compararValores inputValue value)
      end
  end.

Definition executeCondition (condition : Condition)
  (variables : list Variable_) : completion bool :=
  match comparisons condition with
  | None => Normal false
  | Some comparisons =>
      match logicalOperator condition with
      | Some AND => every (executeComparison variables) comparisons
      | _ => some (executeComparison variables) comparisons
      end
  end.

End ExecuteCondition.

End Part000.

(** ** A runtime to run the examples on

    An instance of [JSRuntime] for strings of ASCII characters.  On such
    strings [toLowerCase], [trim] and [normalize] are the engine's (the
    Unicode normalisation form C of an ASCII string is the string itself).
    [Number] covers optional white space around an optional sign and
    decimal digits, and the empty string; [Date_parse] knows no date
    format; the regular expressions are those made of literal characters,
    the dot, [^] and [$], classes with ranges and negation and the postfix
    operators star, plus and question mark, with the flags [g] and [i].
    Outside these fragments the instance answers NaN or refuses the
    pattern, where the engine may do otherwise: the statements below use it
    inside the fragments only. *)

Module Reference.

Definition isUpper (c : ascii) : bool :=
  (65 <=? nat_of_ascii c)%nat && (nat_of_ascii c <=? 90)%nat.

Definition isLower (c : ascii) : bool :=
  (97 <=? nat_of_ascii c)%nat && (nat_of_ascii c <=? 122)%nat.

Definition lowerChar (c : ascii) : ascii :=
  if isUpper c then ascii_of_nat (nat_of_ascii c + 32) else c.

Definition upperChar (c : ascii) : ascii :=
  if isLower c then ascii_of_nat (nat_of_ascii c - 32) else c.

Fixpoint toLowerCase (s : string) : string :=
  match s with
  | EmptyString => EmptyString
  | String c r => String (lowerChar c) (toLowerCase r)
  end.

(** Tab, line feed, vertical tab, form feed, carriage return, space. *)
Definition isWhiteSpace (c : ascii) : bool :=
  ((9 <=? nat_of_ascii c)%nat && (nat_of_ascii c <=? 13)%nat) ||
  (nat_of_ascii c =? 32)%nat.

Fixpoint trimStart (s : string) : string :=
  match s with
  | EmptyString => EmptyString
  | String c r => if isWhiteSpace c then trimStart r else s
  end.

Fixpoint trimEnd (s : string) : string :=
  match s with
  | EmptyString => EmptyString
  | String c r =>
      match trimEnd r with
      | EmptyString => if isWhiteSpace c then EmptyString
                       else String c EmptyString
      | r' => String c r'
      end
  end.

Definition trim (s : string) : string := trimEnd (trimStart s).

Definition normalize (s : string) : string := s.

(** *** Numbers *)

Definition isDigit (c : ascii) : bool :=
  (48 <=? nat_of_ascii c)%nat && (nat_of_ascii c <=? 57)%nat.

Fixpoint digitsValue (s : string) (acc : Z) : option Z :=
  match s with
  | EmptyString => Some acc
  | String c r =>
      if isDigit c
      then digitsValue r (10 * acc + (Z.of_nat (nat_of_ascii c) - 48))%Z
      else None
  end.

Definition unsignedNumber (negative : bool) (s : string) : number :=
  match s with
  | EmptyString => S754_nan
  | _ =>
      match digitsValue s 0%Z with
      | Some z => binary_normalize prec emax
                    (if negative then (- z)%Z else z) 0 negative
      | None => S754_nan
      end
  end.

Definition Number (s : string) : number :=
  match trim s with
  | EmptyString => zero
  | String "+" r => unsignedNumber false r
  | String "-" r => unsignedNumber true r
  | t => unsignedNumber false t
  end.

Definition Date_parse (s : string) : number := S754_nan.

(** *** Regular expressions *)

Inductive Atom : Type :=
| Lit (c : ascii)
| AnyChar
| Class (negated : bool) (ranges : list (ascii * ascii)).

Inductive Quantifier : Type :=
| Once
| Star
| Plus
| Opt.

Inductive Item : Type :=
| Bol
| Eol
| Rep (a : Atom) (q : Quantifier).

Record RegExp : Type := {
  items : list Item;
  ignoreCase : bool
}.

(** The members of a class, read after the opening bracket and the
    optional [^], up to the closing bracket. *)
Fixpoint classRanges (s : string) : option (list (ascii * ascii) * string) :=
  match s with
  | EmptyString => None
  | String "]" r => Some ([], r)
  | String "\" _ => None
  | String a (String "-" (String b r as r')) =>
      if Ascii.eqb b "]" then
        match classRanges r' with
        | Some (l, rest) => Some ((a, a) :: ("-"%char, "-"%char) :: l, rest)
        | None => None
        end
      else if (nat_of_ascii a <=? nat_of_ascii b)%nat then
        match classRanges r with
        | Some (l, rest) => Some ((a, b) :: l, rest)
        | None => None
        end
      else None
  | String a r =>
      match classRanges r with
      | Some (l, rest) => Some ((a, a) :: l, rest)
      | None => None
      end
  end.

Definition atomOf (c : ascii) (r : string) : option (Atom * string) :=
  let unsupported :=
    List.existsb (Ascii.eqb c) ["*"; "+"; "?"; "("; ")"; "|"; "\"; "{"; "}"]%char in
  if unsupported then None
  else if Ascii.eqb c "." then Some (AnyChar, r)
  else if Ascii.eqb c "[" then
    match r with
    | String "^" r' =>
        match classRanges r' with
        | Some (l, rest) => Some (Class true l, rest)
        | None => None
        end
    | _ =>
        match classRanges r with
        | Some (l, rest) => Some (Class false l, rest)
        | None => None
        end
    end
  else Some (Lit c, r).

Definition quantifierOf (r : string) : Quantifier * string :=
  match r with
  | String "*" r' => (Star, r')
  | String "+" r' => (Plus, r')
  | String "?" r' => (Opt, r')
  | _ => (Once, r)
  end.

Fixpoint parseItems (fuel : nat) (s : string) : option (list Item) :=
  match fuel with
  | O => None
  | S fuel =>
      match s with
      | EmptyString => Some []
      | String c r =>
          if Ascii.eqb c "^" then option_map (cons Bol) (parseItems fuel r)
          else if Ascii.eqb c "$" then option_map (cons Eol) (parseItems fuel r)
          else
            match atomOf c r with
            | None => None
            | Some (a, r1) =>
                let (q, r2) := quantifierOf r1 in
                option_map (cons (Rep a q)) (parseItems fuel r2)
            end
      end
  end.

Fixpoint flagsOk (seen : list ascii) (f : string) : bool :=
  match f with
  | EmptyString => true
  | String c r =>
      (Ascii.eqb c "g" || Ascii.eqb c "i") &&
      negb (List.existsb (Ascii.eqb c) seen) && flagsOk (c :: seen) r
  end.

Definition RegExp_new (pattern : string) (flags : option string)
  : option RegExp :=
  let f := match flags with Some f => f | None => EmptyString end in
  if flagsOk [] f then
    match parseItems (S (String.length pattern)) pattern with
    | Some its =>
        Some {| items := its;
                ignoreCase :=
                  List.existsb (Ascii.eqb "i") (list_ascii_of_string f) |}
    | None => None
    end
  else None.

Definition inRanges (ranges : list (ascii * ascii)) (c : ascii) : bool :=
  List.existsb
    (fun p => (nat_of_ascii (fst p) <=? nat_of_ascii c)%nat &&
              (nat_of_ascii c <=? nat_of_ascii (snd p))%nat)
    ranges.

Definition atomMatches (ic : bool) (a : Atom) (c : ascii) : bool :=
  match a with
  | Lit d => if ic then Ascii.eqb (lowerChar d) (lowerChar c)
             else Ascii.eqb d c
  | AnyChar => negb (isLineTerminator c)
  | Class negated ranges =>
      let inside :=
        if ic then inRanges ranges c || inRanges ranges (lowerChar c) ||
                   inRanges ranges (upperChar c)
        else inRanges ranges c in
      xorb negated inside
  end.

(** [matchHere ic its s start]: [its] matches a prefix of [s]; [start]
    tells whether [s] is the whole input. *)
Fixpoint matchHere (ic : bool) (its : list Item) (s : list ascii)
  (start : bool) : bool :=
  match its with
  | [] => true
  | Bol :: r => start && matchHere ic r s start
  | Eol :: r =>
      match s with
      | [] => matchHere ic r s start
      | _ => false
      end
  | Rep a q :: r =>
      let star :=
        fix star (s : list ascii) (start : bool) : bool :=
          match s with
          | c :: s' => atomMatches ic a c && star s' false
          | [] => false
          end || matchHere ic r s start in
      match q with
      | Once =>
          match s with
          | c :: s' => atomMatches ic a c && matchHere ic r s' false
          | [] => false
          end
      | Opt =>
          match s with
          | c :: s' => atomMatches ic a c && matchHere ic r s' false
          | [] => false
          end || matchHere ic r s start
      | Star => star s start
      | Plus =>
          match s with
          | c :: s' => atomMatches ic a c && star s' false
          | [] => false
          end
      end
  end.

Fixpoint matchAnywhere (ic : bool) (its : list Item) (s : list ascii)
  (start : bool) : bool :=
  matchHere ic its s start ||
  match s with
  | _ :: s' => matchAnywhere ic its s' false
  | [] => false
  end.

Definition RegExp_test (re : RegExp) (a : string) : bool :=
  matchAnywhere (ignoreCase re) (items re) (list_ascii_of_string a) true.

#[export] Instance runtime : JSRuntime :=
  Build_JSRuntime toLowerCase trim normalize Number Date_parse
                  RegExp RegExp_new RegExp_test.

(** Modelled from the spec: the variable resolver and the text
    interpolation of the variables package.  The resolver returns the
    variable that the text uniquely names, here by its [id]; the
    interpolation returns the text with its placeholders substituted, here
    for texts that hold no placeholder, and the empty string for an absent
    text. *)
Definition findUniqueVariable (variables : list Variable_)
  (text : option string) : option Variable_ :=
  match text with
  | None => None
  | Some t =>
      match List.filter (fun v => String.eqb (id v) t) variables with
      | [v] => Some v
      | _ => None
      end
  end.

Definition parseVariables (variables : list Variable_)
  (text : option string) : string :=
  match text with
  | None => EmptyString
  | Some t => t
  end.

#[export] Instance collaborators : Collaborators :=
  Build_Collaborators findUniqueVariable parseVariables.

End Reference.


(** ** Inputs of the examples *)

Module Examples.

Definition comparisonOf (variableId : string) (op : ComparisonOperators)
  (text : string) : Comparison :=
  {| variableId := Some variableId;
     comparisonOperator := Some op;
     comparisonValue := Some text |}.

(** One variable ["v"] bound to [input], one comparison on it. *)
Definition bindings (input : VariableValue) : list Variable_ :=
  [{| id := "v"; value := input |}].

Definition single (op : ComparisonOperators) (text : string) : Condition :=
  {| logicalOperator := Some AND;
     comparisons := Some [comparisonOf "v" op text] |}.

End Examples.

(** * Properties *)

(** ** [every] and [some] *)

Lemma every_Normal {A : Type} (f : A -> completion bool) (l : list A) :
  (forall x, In x l -> exists b, f x = Normal b) ->
  exists b, every f l = Normal b.
Proof.
  induction l as [|x r IH]; intros H; simpl.
  - now exists true.
  - destruct (H x (or_introl eq_refl)) as [[|] E]; rewrite E.
    + apply IH. intros y Hy. apply H. now right.
    + now exists false.
Qed.

Lemma some_Normal {A : Type} (f : A -> completion bool) (l : list A) :
  (forall x, In x l -> exists b, f x = Normal b) ->
  exists b, some f l = Normal b.
Proof.
  induction l as [|x r IH]; intros H; simpl.
  - now exists false.
  - destruct (H x (or_introl eq_refl)) as [[|] E]; rewrite E.
    + now exists true.
    + apply IH. intros y Hy. apply H. now right.
Qed.

(** [some] answers true exactly when an element answers true and all the
    elements before it answer false. *)
Lemma some_true_iff {A : Type} (f : A -> completion bool) (l : list A) :
  some f l = Normal true <->
  exists pre x post,
    l = pre ++ x :: post /\
    (forall y, In y pre -> f y = Normal false) /\
    f x = Normal true.
Proof.
  induction l as [|x r IH]; simpl.
  - split; [discriminate|].
    intros (pre & y & post & E & _). now destruct pre.
  - split.
    + destruct (f x) as [[|]|e] eqn:E; try discriminate.
      * intros _. exists [], x, r. repeat split; [intros ? []|exact E].
      * intros H. apply IH in H as (pre & y & post & -> & Hpre & Hy).
        exists (x :: pre), y, post. repeat split; auto.
        intros z [<-|Hz]; auto.
    + intros (pre & y & post & E & Hpre & Hy).
      destruct pre as [|p pre]; simpl in E; injection E as E1 E2; subst.
      * now rewrite Hy.
      * rewrite (Hpre p (or_introl eq_refl)). apply IH.
        exists pre, y, post. repeat split; auto.
        intros z Hz. apply Hpre. now right.
Qed.

Lemma some_true_iff_total {A : Type} (f : A -> completion bool) (l : list A) :
  (forall x, In x l -> exists b, f x = Normal b) ->
  (some f l = Normal true <-> exists x, In x l /\ f x = Normal true).
Proof.
  induction l as [|x r IH]; intros H; simpl.
  - split; [discriminate|]. now intros (? & [] & _).
  - destruct (H x (or_introl eq_refl)) as [[|] E]; rewrite E.
    + split; [|reflexivity]. intros _. exists x. auto.
    + rewrite IH by (intros y Hy; apply H; now right).
      split.
      * intros (y & Hy & Ey). exists y. auto.
      * intros (y & [<-|Hy] & Ey); [congruence|]. exists y. auto.
Qed.

Section TopLevel.

Context {rt : JSRuntime} {co : Collaborators}.

(** C2.  A condition without [comparisons] evaluates to false, whatever its
    logical operator; AND over an empty list of comparisons evaluates to
    true and OR over an empty list to false.  Both variants. *)
Theorem executeCondition_fail_closed :
  (forall lo variables,
      Packages.executeCondition
        {| logicalOperator := lo; comparisons := None |} variables
      = Normal false /\
      Part000.executeCondition
        {| logicalOperator := lo; comparisons := None |} variables
      = Normal false) /\
  (forall variables,
      Packages.executeCondition
        {| logicalOperator := Some AND; comparisons := Some [] |} variables
      = Normal true /\
      Part000.executeCondition
        {| logicalOperator := Some AND; comparisons := Some [] |} variables
      = Normal true) /\
  (forall variables,
      Packages.executeCondition
        {| logicalOperator := Some OR; comparisons := Some [] |} variables
      = Normal false /\
      Part000.executeCondition
        {| logicalOperator := Some OR; comparisons := Some [] |} variables
      = Normal false).
Proof.
  repeat split.
Qed.

(** C3.  A comparison whose [variableId] is absent or empty, or whose
    [comparisonOperator] is absent, evaluates to false without throwing,
    for all bindings and whatever its [value] field holds. *)
Theorem executeComparison_missing_field :
  forall variables comparison,
    JSString.falsy (variableId comparison) = true \/
    comparisonOperator comparison = None ->
    Packages.executeComparison variables comparison = Normal false /\
    Part000.executeComparison variables comparison = Normal false.
Proof.
  intros variables [vid op text] H; simpl in H.
  unfold Packages.executeComparison, Part000.executeComparison; simpl.
  destruct vid as [[|c s]|]; auto.
  destruct H as [H| ->]; [discriminate|auto].
Qed.

(** C10.  With a list of comparisons and a logical operator other than AND,
    absent included, the condition is the OR of its comparisons as
    [Array.prototype.some] computes it: true exactly when some comparison
    is true and all those before it are false; when no comparison throws,
    true exactly when some comparison is true. *)
Theorem executeCondition_not_AND_is_OR :
  forall lo comparisons variables,
    lo <> Some AND ->
    let result :=
      Packages.executeCondition
        {| logicalOperator := lo; comparisons := Some comparisons |}
        variables in
    result = some (Packages.executeComparison variables) comparisons /\
    (result = Normal true <->
     exists pre c post,
       comparisons = pre ++ c :: post /\
       (forall c', In c' pre ->
                   Packages.executeComparison variables c' = Normal false) /\
       Packages.executeComparison variables c = Normal true) /\
    ((forall c, In c comparisons ->
                exists b, Packages.executeComparison variables c = Normal b) ->
     (exists b, result = Normal b) /\
     (result = Normal true <->
      exists c, In c comparisons /\
                Packages.executeComparison variables c = Normal true)).
Proof.
  intros lo cs variables Hlo result.
  assert (E : result = some (Packages.executeComparison variables) cs).
  { unfold result, Packages.executeCondition; simpl.
    destruct lo as [[|]|]; congruence. }
  rewrite E. split; [reflexivity|]. split.
  - apply some_true_iff.
  - intros H. split.
    + now apply some_Normal.
    + now apply some_true_iff_total.
Qed.

End TopLevel.

(** ** Numbers: comparisons with NaN *)

Lemma isNaN_true (x : number) : isNaN x = true -> x = S754_nan.
Proof. destruct x; simpl; congruence. Qed.

Lemma gt_NaN_l (y : number) : gt S754_nan y = false.
Proof. now destruct y. Qed.

Lemma gt_NaN_r (x : number) : gt x S754_nan = false.
Proof. now destruct x. Qed.

Lemma lt_NaN_l (y : number) : lt S754_nan y = false.
Proof. now destruct y. Qed.

Lemma lt_NaN_r (x : number) : lt x S754_nan = false.
Proof. now destruct x. Qed.

(** ** The comparison, past its guards *)

Section Comparison.

Context {rt : JSRuntime} {co : Collaborators}.

Lemma nonempty_String (s : string) :
  s <> EmptyString -> exists c r, s = String c r.
Proof. destruct s as [|c r]; [congruence|eauto]. Qed.

(** The variants run the same code on every operator but
    STRING_SIMILARITY. *)
Lemma executeComparison_agree (variables : list Variable_) (c : Comparison) :
  comparisonOperator c <> Some STRING_SIMILARITY ->
  Packages.executeComparison variables c = Part000.executeComparison variables c.
Proof.
  intros H. unfold Packages.executeComparison, Part000.executeComparison.
  destruct (variableId c) as [[|a s]|]; try reflexivity.
  destruct (comparisonOperator c) as [[]|]; try reflexivity.
  congruence.
Qed.

Lemma parseDateOrNumber_NaN (a : string) :
  isNaN (Number a) = true -> isNaN (Date_parse a) = true ->
  parseDateOrNumber a = S754_nan.
Proof.
  intros H1 H2. unfold parseDateOrNumber. rewrite H1. now apply isNaN_true.
Qed.

Lemma ordering_NaN (rel : number -> number -> bool) (iv v : VariableValue)
  (a : string) :
  (forall x, rel S754_nan x = false) -> (forall x, rel x S754_nan = false) ->
  iv = VString a \/ v = VString a ->
  isNaN (Number a) = true -> isNaN (Date_parse a) = true ->
  ordering rel iv v = false.
Proof.
  intros Hl Hr H H1 H2. unfold ordering.
  pose proof (parseDateOrNumber_NaN a H1 H2) as E.
  apply isNaN_true in H1.
  destruct H as [-> | ->].
  - destruct v; simpl; rewrite ?E, ?H1; auto.
  - destruct iv; simpl; rewrite ?E, ?H1; auto.
Qed.

Lemma ordering_null (rel : number -> number -> bool) (iv v : VariableValue) :
  iv = VNull \/ v = VNull -> ordering rel iv v = false.
Proof.
  intros [-> | ->]; unfold ordering; simpl; [reflexivity|].
  now rewrite orb_true_r.
Qed.

(** C6.  GREATER and LESS on two strings compare [parseDateOrNumber] of
    each, the number [Number] parses or else the time [Date.parse] parses;
    so ["10"] is greater than ["2"] in an engine that parses them as 10 and
    2.  When one side is a string that parses as neither, and when one side
    is null, both operators answer false. *)
Theorem GREATER_LESS_numeric :
  forall variables vid text,
    vid <> EmptyString ->
    let inputValue := inputValueOf variables vid in
    let value := valueOf variables text in
    let greater :=
      Packages.executeComparison variables
        {| variableId := Some vid; comparisonOperator := Some GREATER;
           comparisonValue := text |} in
    let less :=
      Packages.executeComparison variables
        {| variableId := Some vid; comparisonOperator := Some LESS;
           comparisonValue := text |} in
    (forall a b,
        inputValue = VString a -> value = VString b ->
        greater = Normal (gt (parseDateOrNumber a) (parseDateOrNumber b)) /\
        less = Normal (lt (parseDateOrNumber a) (parseDateOrNumber b)) /\
        parseDateOrNumber a
        = (if isNaN (Number a) then Date_parse a else Number a)) /\
    (inputValue = VString "10" -> value = VString "2" ->
     Number "10" = ofNat 10 -> Number "2" = ofNat 2 ->
     greater = Normal true /\ less = Normal false) /\
    (forall a,
        inputValue = VString a \/ value = VString a ->
        isNaN (Number a) = true -> isNaN (Date_parse a) = true ->
        greater = Normal false /\ less = Normal false) /\
    (inputValue = VNull \/ value = VNull ->
     greater = Normal false /\ less = Normal false).
Proof.
  intros variables vid text Hvid inputValue value greater less.
  destruct (nonempty_String vid Hvid) as (c & r & ->).
  assert (Eg : greater = Normal (ordering gt inputValue value)) by reflexivity.
  assert (El : less = Normal (ordering lt inputValue value)) by reflexivity.
  rewrite Eg, El. clear Eg El greater less.
  split; [|split; [|split]].
  - intros a b Ha Hb. rewrite Ha, Hb. repeat split.
  - intros Ha Hb N10 N2. rewrite Ha, Hb.
    unfold ordering, parseDateOrNumber; simpl. rewrite N10, N2.
    split; reflexivity.
  - intros a Ha Hn Hd. split; f_equal.
    + eapply ordering_NaN; eauto using gt_NaN_l, gt_NaN_r.
    + eapply ordering_NaN; eauto using lt_NaN_l, lt_NaN_r.
  - intros Hnull. split; f_equal; now apply ordering_null.
Qed.

(** C9.  On every input value, IS_SET and IS_EMPTY answer opposite
    booleans: exactly one of them is true.  Both variants. *)
Theorem IS_SET_IS_EMPTY_complement :
  forall variables vid text1 text2 inputValue,
    vid <> EmptyString ->
    inputValueOf variables vid = inputValue ->
    let isSet :=
      {| variableId := Some vid; comparisonOperator := Some IS_SET;
         comparisonValue := text1 |} in
    let isEmpty :=
      {| variableId := Some vid; comparisonOperator := Some IS_EMPTY;
         comparisonValue := text2 |} in
    exists b,
      b = isDefined inputValue && (0 <? lengthOf inputValue)%nat /\
      Packages.executeComparison variables isSet = Normal b /\
      Packages.executeComparison variables isEmpty = Normal (negb b) /\
      Part000.executeComparison variables isSet = Normal b /\
      Part000.executeComparison variables isEmpty = Normal (negb b).
Proof.
  intros variables vid text1 text2 inputValue Hvid Hin isSet isEmpty.
  destruct (nonempty_String vid Hvid) as (c & r & ->).
  exists (isDefined inputValue && (0 <? lengthOf inputValue)%nat).
  split; [reflexivity|].
  rewrite <- !executeComparison_agree by (simpl; congruence).
  unfold Packages.executeComparison; simpl. rewrite Hin.
  repeat split; f_equal.
  all: unfold isNotDefined; rewrite negb_andb; f_equal.
  all: destruct (lengthOf inputValue); reflexivity.
Qed.

(** Every value is the input value of some bindings. *)
Lemma inputValueOf_bindings (v : VariableValue) :
  inputValueOf (Examples.bindings v) "v" = v.
Proof. reflexivity. Qed.

End Comparison.

(** ** Regular expressions and exceptions *)

Section Regex.

Context {rt : JSRuntime} {co : Collaborators}.

Lemma regexWithFlags_nonempty (s p f : string) :
  regexWithFlags s = Some (p, f) -> p <> EmptyString.
Proof.
  induction s as [|c r IH]; simpl; [discriminate|].
  destruct (Ascii.eqb c "/").
  - destruct (closing r) as [[[|a q] g]|]; auto.
    intros [= <- <-]. discriminate.
  - exact IH.
Qed.

(** The guard [!regex.pattern] never fires on a non-empty target. *)
Lemma preprocessRegex_pattern_nonempty (b : string) :
  b <> EmptyString ->
  JSString.falsy (Some (pattern (preprocessRegex b))) = false.
Proof.
  intros Hb. unfold preprocessRegex.
  destruct (regexWithFlags b) as [[p f]|] eqn:E; simpl.
  - apply regexWithFlags_nonempty in E. now destruct p.
  - now destruct b.
Qed.

Lemma matchesRegex_nonempty (a b : string) :
  a <> EmptyString -> b <> EmptyString ->
  matchesRegex (Some a) (Some b) = newRegExpTest (preprocessRegex b) a /\
  matchesRegex_NOT_MATCH (Some a) (Some b)
  = match newRegExpTest (preprocessRegex b) a with
    | Normal r => Normal (negb r)
    | Throw e => Throw e
    end.
Proof.
  intros Ha Hb. unfold matchesRegex, matchesRegex_NOT_MATCH.
  rewrite (preprocessRegex_pattern_nonempty b Hb).
  destruct a, b; try congruence. auto.
Qed.

(** C4, as amended.  NOT_MATCH_REGEX reduces its callback with [every] and
    MATCHES_REGEX with [some].  On a non-empty input and a non-empty target
    whose regular expression the constructor accepts, the callback of
    NOT_MATCH_REGEX is the negation of that of MATCHES_REGEX; when the
    constructor refuses the regular expression, both throw its
    SyntaxError. *)
Theorem NOT_MATCH_REGEX_semantics :
  forall variables vid text,
    vid <> EmptyString ->
    let inputValue := inputValueOf variables vid in
    let value := valueOf variables text in
    let matches :=
      Packages.executeComparison variables
        {| variableId := Some vid; comparisonOperator := Some MATCHES_REGEX;
           comparisonValue := text |} in
    let notMatch :=
      Packages.executeComparison variables
        {| variableId := Some vid; comparisonOperator := Some NOT_MATCH_REGEX;
           comparisonValue := text |} in
    matches = compare matchesRegex inputValue value Some_ /\
    notMatch = compare matchesRegex_NOT_MATCH inputValue value Every /\
    (forall la b,
        inputValue = VList la -> value = VString b ->
        notMatch = every (fun a => matchesRegex_NOT_MATCH a (Some b)) la) /\
    (forall a b,
        a <> EmptyString -> b <> EmptyString ->
        match RegExp_new (pattern (preprocessRegex b))
                         (flags (preprocessRegex b)) with
        | Some re =>
            matchesRegex (Some a) (Some b) = Normal (RegExp_test re a) /\
            matchesRegex_NOT_MATCH (Some a) (Some b)
            = Normal (negb (RegExp_test re a)) /\
            (inputValue = VString a -> value = VString b ->
             matches = Normal (RegExp_test re a) /\
             notMatch = Normal (negb (RegExp_test re a)))
        | None =>
            matchesRegex (Some a) (Some b) = Throw SyntaxError /\
            matchesRegex_NOT_MATCH (Some a) (Some b) = Throw SyntaxError /\
            (inputValue = VString a -> value = VString b ->
             matches = Throw SyntaxError /\ notMatch = Throw SyntaxError)
        end).
Proof.
  intros variables vid text Hvid inputValue value matches notMatch.
  destruct (nonempty_String vid Hvid) as (c & r & ->).
  assert (Em : matches = compare matchesRegex inputValue value Some_)
    by reflexivity.
  assert (En : notMatch = compare matchesRegex_NOT_MATCH inputValue value Every)
    by reflexivity.
  rewrite Em, En. clear Em En matches notMatch.
  split; [reflexivity|]. split; [reflexivity|]. split.
  - intros la b -> ->. reflexivity.
  - intros a b Ha Hb.
    destruct (matchesRegex_nonempty a b Ha Hb) as [E1 E2].
    rewrite E1, E2. unfold newRegExpTest.
    destruct (RegExp_new _ _) as [re|] eqn:E.
    + split; [reflexivity|]. split; [reflexivity|].
      intros -> ->. unfold compare. rewrite E1, E2. unfold newRegExpTest.
      rewrite E. auto.
    + split; [reflexivity|]. split; [reflexivity|].
      intros -> ->. unfold compare. rewrite E1, E2. unfold newRegExpTest.
      rewrite E. auto.
Qed.

Lemma compare_Normal
  (compareStrings : option string -> option string -> completion bool)
  (a b : VariableValue) (type : ReduceType) :
  (forall x y, In y (elementsOf b) ->
               exists r, compareStrings x y = Normal r) ->
  exists r, compare compareStrings a b type = Normal r.
Proof.
  intros H.
  destruct a as [|sa|la], b as [|sb|lb], type; simpl in *;
    repeat first [ apply every_Normal; intros ? ?
                 | apply some_Normal; intros ? ? ];
    apply H; auto.
Qed.

Lemma compare_pure_Normal (f : option string -> option string -> bool)
  (a b : VariableValue) (type : ReduceType) :
  exists r, compare (pure f) a b type = Normal r.
Proof. apply compare_Normal. intros x y _. unfold pure. eauto. Qed.

Lemma matchesRegex_Normal (x y : option string) :
  (forall s, y = Some s -> compiles s) ->
  (exists r, matchesRegex x y = Normal r) /\
  (exists r, matchesRegex_NOT_MATCH x y = Normal r).
Proof.
  intros H. unfold matchesRegex, matchesRegex_NOT_MATCH.
  destruct x as [a|], y as [b|]; eauto.
  destruct (JSString.falsy (Some b) || JSString.falsy (Some a)); eauto.
  destruct (JSString.falsy (Some (pattern (preprocessRegex b)))); eauto.
  destruct (H b eq_refl) as [re E]. unfold newRegExpTest. rewrite E. eauto.
Qed.

Lemma Part000_executeComparison_Normal (variables : list Variable_)
  (c : Comparison) :
  patternsCompile variables c ->
  exists b, Part000.executeComparison variables c = Normal b.
Proof.
  intros Hp. unfold Part000.executeComparison.
  destruct (variableId c) as [[|a s]|]; eauto.
  unfold patternsCompile in Hp.
  destruct (comparisonOperator c) as [[]|]; eauto;
    try (destruct (inputValueOf variables (String a s));
         apply compare_pure_Normal);
    try apply compare_pure_Normal.
  - apply compare_Normal. intros x y Hy.
    apply matchesRegex_Normal. intros t ->. auto.
  - apply compare_Normal. intros x y Hy.
    apply matchesRegex_Normal. intros t ->. auto.
Qed.

Lemma Packages_executeComparison_Normal (variables : list Variable_)
  (c : Comparison) :
  patternsCompile variables c -> similarityOnString variables c ->
  exists b, Packages.executeComparison variables c = Normal b.
Proof.
  intros Hp Hs.
  destruct (comparisonOperator c) as [op|] eqn:Eop.
  - destruct op;
      try (rewrite executeComparison_agree by congruence;
           now apply Part000_executeComparison_Normal).
    unfold Packages.executeComparison. rewrite Eop.
    destruct (variableId c) as [[|a s]|]; eauto.
    destruct (Hs Eop) as [t ->].
    destruct (inputValueOf variables (String a s)); eauto.
  - rewrite executeComparison_agree by congruence.
    now apply Part000_executeComparison_Normal.
Qed.

(** C1, as amended.  [executeCondition] returns a boolean for every
    condition and all bindings, provided the constructor accepts the regular
    expression of every target of its MATCHES_REGEX and NOT_MATCH_REGEX
    comparisons and, in the packages variant, the right-hand side of its
    STRING_SIMILARITY comparisons is a string.  Absent fields and strings
    that parse as neither number nor date are covered: nothing is asked of
    them. *)
Theorem executeCondition_total_when_patterns_compile :
  forall condition variables,
    let cs := match comparisons condition with
              | Some l => l
              | None => []
              end in
    (forall c, In c cs -> patternsCompile variables c) ->
    (exists b, Part000.executeCondition condition variables = Normal b) /\
    ((forall c, In c cs -> similarityOnString variables c) ->
     exists b, Packages.executeCondition condition variables = Normal b).
Proof.
  intros [lo cs'] variables cs Hp.
  unfold Packages.executeCondition, Part000.executeCondition; simpl in *.
  destruct cs' as [l|]; [|eauto].
  split; [|intros Hs]; destruct lo as [[|]|];
    (apply every_Normal || apply some_Normal); intros c Hc;
    auto using Part000_executeComparison_Normal,
               Packages_executeComparison_Normal.
Qed.

End Regex.

(** ** Numbers: the order of the comparison operators *)

Ltac compare_cases :=
  repeat match goal with
         | |- context [Pos.compare_cont Eq ?x ?y] =>
             change (Pos.compare_cont Eq x y) with (Pos.compare x y)
         | H : context [Pos.compare_cont Eq ?x ?y] |- _ =>
             change (Pos.compare_cont Eq x y) with (Pos.compare x y) in H
         end;
  repeat match goal with
         | H : context [Z.compare ?x ?y] |- _ =>
             destruct (Z.compare_spec x y); simpl in H; try discriminate H
         | H : context [Pos.compare ?x ?y] |- _ =>
             destruct (Pos.compare_spec x y); simpl in H; try discriminate H
         end;
  repeat match goal with
         | |- context [Z.compare ?x ?y] =>
             destruct (Z.compare_spec x y); simpl; try lia
         | |- context [Pos.compare ?x ?y] =>
             destruct (Pos.compare_spec x y); simpl; try lia
         end.

Lemma gt_trans (a b c : number) :
  gt a b = true -> gt b c = true -> gt a c = true.
Proof.
  unfold gt, SFltb, SFcompare.
  destruct a as [sa|sa| |sa ma ea], b as [sb|sb| |sb mb eb],
           c as [sc|sc| |sc mc ec];
    repeat match goal with s : bool |- _ => destruct s end;
    simpl; intros H1 H2; try discriminate; try reflexivity;
    compare_cases; try reflexivity; try lia; try discriminate.
Qed.

(** A number that [s] does not exceed exceeds what [s] exceeds. *)
Lemma gt_of_not_exceeded (s m t : number) :
  gt s t = true -> gt s m = false -> isNaN m = false -> gt m t = true.
Proof.
  unfold gt, SFltb, SFcompare.
  destruct t as [st|st| |st mt et], s as [ss|ss| |ss ms es],
           m as [sm|sm| |sm mm em];
    repeat match goal with s : bool |- _ => destruct s end;
    simpl; intros H1 H2 H3; try discriminate; try reflexivity;
    compare_cases; try reflexivity; try lia; try discriminate.
Qed.

Lemma gt_not_NaN (x y : number) : gt x y = true -> isNaN x = false.
Proof. destruct x; [reflexivity..| |reflexivity]. now rewrite gt_NaN_l. Qed.

(** ** The loop of STRING_SIMILARITY *)

(** After the loop, [maxSimilarity] exceeds [t] exactly when its initial
    value or the score of some candidate does. *)
Lemma maxSimilarity_exceeds (score : string -> number) (t : number)
  (values : list string) :
  forall m,
    isNaN m = false ->
    gt (List.fold_left
          (fun maxSimilarity val =>
             let similarity := score val in
             if gt similarity maxSimilarity then similarity
             else maxSimilarity)
          values m) t = true <->
    gt m t = true \/ exists c, In c values /\ gt (score c) t = true.
Proof.
  induction values as [|v vs IH]; intros m Hm; simpl.
  - split; [auto|]. intros [H|(c & [] & _)]. exact H.
  - destruct (gt (score v) m) eqn:E.
    + rewrite IH by (eapply gt_not_NaN; eassumption). split.
      * intros [H|(c & Hc & H)]; right; [exists v|exists c]; auto.
      * intros [H|(c & [<-|Hc] & H)]; auto.
        -- left. eapply gt_trans; eassumption.
        -- right. exists c. auto.
    + rewrite IH by assumption. split.
      * intros [H|(c & Hc & H)]; [now left|]. right. exists c. auto.
      * intros [H|(c & [<-|Hc] & H)]; auto.
        -- left. eapply gt_of_not_exceeded; eassumption.
        -- right. exists c. auto.
Qed.

Lemma rows_empty (str1 : list ascii) (k : nat) :
  Part000.rows str1 [] k [k] = [k + List.length str1].
Proof.
  revert k. induction str1 as [|c r IH]; intros k; simpl.
  - now rewrite Nat.add_0_r.
  - rewrite IH. f_equal. lia.
Qed.

Lemma length_list_ascii_of_string (s : string) :
  List.length (list_ascii_of_string s) = String.length s.
Proof. induction s; simpl; congruence. Qed.

Lemma levenshtein_empty (s : string) :
  Part000.levenshtein s EmptyString = String.length s.
Proof.
  unfold Part000.levenshtein; simpl.
  now rewrite rows_empty, length_list_ascii_of_string.
Qed.

(** Against the empty candidate the Levenshtein score is 0, or NaN for the
    empty input: below the threshold. *)
Lemma Part000_score_empty (i : string) :
  gt (Part000.compareStringsBagOfNumbers i EmptyString) lit_0_8 = false.
Proof.
  unfold Part000.compareStringsBagOfNumbers.
  rewrite levenshtein_empty. simpl String.length. rewrite Nat.max_0_r.
  generalize (ofNat (String.length i)). intros x.
  destruct x as [[|]|[|]| |s m e]; try reflexivity.
  unfold div, SFsub. rewrite Z.sub_diag. reflexivity.
Qed.

Lemma split_empty (sep : ascii) : JSString.split sep EmptyString = [EmptyString].
Proof. reflexivity. Qed.

(** C7.  STRING_SIMILARITY, in both variants.  An input value that is not a
    string gives false.  On a string input and a string target, the target
    is split on "|" and the result is true exactly when the score of some
    candidate, hence the maximal score, exceeds the threshold, 0.5 for the
    cosine score and 0.8 for the Levenshtein score.  Input "Hello" against
    "Hi|Hello|Hey" gives true, "Hello" being one of the candidates, and
    input "Xyz" gives false. *)
Theorem STRING_SIMILARITY_semantics :
  (forall (rt : JSRuntime) (co : Collaborators) variables vid text,
      vid <> EmptyString ->
      let inputValue := inputValueOf variables vid in
      let value := valueOf variables text in
      let comparison :=
        {| variableId := Some vid;
           comparisonOperator := Some STRING_SIMILARITY;
           comparisonValue := text |} in
      let cosine := Packages.executeComparison variables comparison in
      let edit := Part000.executeComparison variables comparison in
      ((forall s, inputValue <> VString s) ->
       cosine = Normal false /\ edit = Normal false) /\
      (forall i v,
          inputValue = VString i -> value = VString v ->
          let values := JSString.split "|" v in
          cosine = Normal (gt (Packages.maxSimilarityOf i values) lit_0_5) /\
          edit = Normal (gt (Part000.maxSimilarityOf i values) lit_0_8) /\
          (cosine = Normal true <->
           exists c, In c values /\
                     gt (Packages.compareStringsBagOfNumbers i c) lit_0_5
                     = true) /\
          (edit = Normal true <->
           exists c, In c values /\
                     gt (Part000.compareStringsBagOfNumbers i c) lit_0_8
                     = true))) /\
  In "Hello" (JSString.split "|" "Hi|Hello|Hey") /\
  Packages.executeCondition
    (rt := Reference.runtime) (co := Reference.collaborators)
    (Examples.single STRING_SIMILARITY "Hi|Hello|Hey")
    (Examples.bindings (VString "Hello")) = Normal true /\
  Packages.executeCondition
    (rt := Reference.runtime) (co := Reference.collaborators)
    (Examples.single STRING_SIMILARITY "Hi|Hello|Hey")
    (Examples.bindings (VString "Xyz")) = Normal false /\
  Part000.executeCondition
    (rt := Reference.runtime) (co := Reference.collaborators)
    (Examples.single STRING_SIMILARITY "Hi|Hello|Hey")
    (Examples.bindings (VString "Hello")) = Normal true /\
  Part000.executeCondition
    (rt := Reference.runtime) (co := Reference.collaborators)
    (Examples.single STRING_SIMILARITY "Hi|Hello|Hey")
    (Examples.bindings (VString "Xyz")) = Normal false.
Proof.
  split; [|repeat split; try (vm_compute; reflexivity); simpl; auto].
  intros rt co variables vid text Hvid inputValue value comparison cosine edit.
  destruct (nonempty_String vid Hvid) as (c & r & ->).
  split.
  - intros Hns. unfold cosine, edit, Packages.executeComparison,
      Part000.executeComparison; simpl.
    fold inputValue.
    destruct inputValue as [|s|l]; auto. now destruct (Hns s).
  - intros i v Hi Hv values.
    assert (Ec : cosine
                 = Normal (gt (Packages.maxSimilarityOf i values) lit_0_5)).
    { unfold cosine, Packages.executeComparison; simpl.
      fold inputValue value. now rewrite Hi, Hv. }
    assert (Ee : edit = Normal (Part000.compararValores (VString i) (VString v))).
    { unfold edit, Part000.executeComparison; simpl.
      fold inputValue value. now rewrite Hi, Hv. }
    assert (Ev : Part000.compararValores (VString i) (VString v)
                 = gt (Part000.maxSimilarityOf i values) lit_0_8).
    { unfold Part000.compararValores.
      destruct v as [|a v']; [|reflexivity].
      simpl JSString.falsy. cbv iota. unfold values.
      rewrite split_empty. unfold Part000.maxSimilarityOf.
      cbn [List.fold_left].
      destruct (gt _ zero);
        [symmetry; apply Part000_score_empty | reflexivity]. }
    rewrite Ee, Ev, Ec. split; [reflexivity|]. split; [reflexivity|].
    split.
    + unfold Packages.maxSimilarityOf.
      split.
      * intros [= H]. apply maxSimilarity_exceeds in H; [|reflexivity].
        destruct H as [H|H]; [discriminate H|exact H].
      * intros H. f_equal. apply maxSimilarity_exceeds; auto.
    + unfold Part000.maxSimilarityOf.
      split.
      * intros [= H]. apply maxSimilarity_exceeds in H; [|reflexivity].
        destruct H as [H|H]; [discriminate H|exact H].
      * intros H. f_equal. apply maxSimilarity_exceeds; auto.
Qed.

(** ** CONTAINS *)

Section Contains.

Context {rt : JSRuntime} {co : Collaborators}.

Lemma some_pure_existsb {A : Type} (f : A -> bool) (l : list A) :
  some (fun x => Normal (f x)) l = Normal (List.existsb f l).
Proof.
  induction l as [|x r IH]; simpl; [reflexivity|].
  destruct (f x); simpl; auto.
Qed.

(** Where CONTAINS does what it is meant to do: an array of strings against
    a string target is a membership test up to normalisation; a string
    against a string target is a substring test on the lower-cased, trimmed
    and normalised strings, false on an empty side; a string or null
    against a null target is false. *)
Lemma CONTAINS_on_strings :
  forall variables vid text,
    vid <> EmptyString ->
    let inputValue := inputValueOf variables vid in
    let value := valueOf variables text in
    let result :=
      Packages.executeComparison variables
        {| variableId := Some vid; comparisonOperator := Some CONTAINS;
           comparisonValue := text |} in
    (forall la b,
        inputValue = VList (List.map Some la) -> value = VString b ->
        result
        = Normal (List.existsb
                    (fun a => String.eqb (normalize a) (normalize b)) la)) /\
    (forall a b,
        inputValue = VString a -> value = VString b ->
        result
        = Normal (negb (String.eqb b EmptyString) &&
                  negb (String.eqb a EmptyString) &&
                  JSString.includes (lowerTrimNormalize a)
                                    (lowerTrimNormalize b))) /\
    (forall a,
        inputValue = VString a \/ inputValue = VNull ->
        value = VNull \/ value = VString EmptyString ->
        result = Normal false).
Proof.
  intros variables vid text Hvid inputValue value result.
  destruct (nonempty_String vid Hvid) as (c & r & ->).
  unfold result, Packages.executeComparison; simpl.
  fold inputValue value. clearbody inputValue value. clear result.
  repeat split.
  - intros la b -> ->. unfold compare, pure; simpl.
    rewrite <- some_pure_existsb.
    induction la as [|a la IH]; simpl; [reflexivity|].
    destruct (String.eqb (normalize a) (normalize b)); auto.
  - intros a b -> ->. unfold compare, pure, contains; simpl.
    destruct a, b; reflexivity.
  - intros a [-> | ->] [-> | ->]; reflexivity.
Qed.

End Contains.

(** C5, the code at the failing input.  CONTAINS on the array ["x"] with
    the target [null] (the text "null") answers true in both variants, as
    the callback [equal] answers [a !== b] when one side is not a string;
    the callback of EQUAL answers [a === b] there. *)
Theorem CONTAINS_array_null_target :
  Packages.executeCondition
    (rt := Reference.runtime) (co := Reference.collaborators)
    (Examples.single CONTAINS "null")
    (Examples.bindings (VList [Some "x"])) = Normal true /\
  Part000.executeCondition
    (rt := Reference.runtime) (co := Reference.collaborators)
    (Examples.single CONTAINS "null")
    (Examples.bindings (VList [Some "x"])) = Normal true /\
  (forall rt : JSRuntime,
      equal (Some "x") None = true /\ equalStrings (Some "x") None = false).
Proof.
  repeat split.
Qed.

(** The examples of the spec, in the reference runtime. *)

(** "  Hello World  " contains "hello". *)
Lemma CONTAINS_Hello_World :
  Packages.executeCondition
    (rt := Reference.runtime) (co := Reference.collaborators)
    (Examples.single CONTAINS "hello")
    (Examples.bindings (VString "  Hello World  ")) = Normal true.
Proof. vm_compute. reflexivity. Qed.

(** The target "/^[0-9]+$/i" matches "123" and does not match "12a". *)
Lemma MATCHES_REGEX_digits :
  Packages.executeCondition
    (rt := Reference.runtime) (co := Reference.collaborators)
    (Examples.single MATCHES_REGEX "/^[0-9]+$/i")
    (Examples.bindings (VString "123")) = Normal true /\
  Packages.executeCondition
    (rt := Reference.runtime) (co := Reference.collaborators)
    (Examples.single MATCHES_REGEX "/^[0-9]+$/i")
    (Examples.bindings (VString "12a")) = Normal false.
Proof. split; vm_compute; reflexivity. Qed.

(** The scenario of the spec: v1 equals "42" and v2 is set. *)
Lemma scenario_AND :
  Packages.executeCondition
    (rt := Reference.runtime) (co := Reference.collaborators)
    {| logicalOperator := Some AND;
       comparisons :=
         Some [Examples.comparisonOf "v1" EQUAL "42";
               {| variableId := Some "v2";
                  comparisonOperator := Some IS_SET;
                  comparisonValue := None |}] |}
    [{| id := "v1"; value := VString "42" |};
     {| id := "v2"; value := VString "x" |}] = Normal true.
Proof. vm_compute. reflexivity. Qed.

(** ** The two variants *)

Lemma every_ext {A : Type} (f g : A -> completion bool) (l : list A) :
  (forall x, In x l -> f x = g x) -> every f l = every g l.
Proof.
  induction l as [|x r IH]; intros H; simpl; [reflexivity|].
  rewrite (H x (or_introl eq_refl)), IH; [reflexivity|].
  intros y Hy. apply H. now right.
Qed.

Lemma some_ext {A : Type} (f g : A -> completion bool) (l : list A) :
  (forall x, In x l -> f x = g x) -> some f l = some g l.
Proof.
  induction l as [|x r IH]; intros H; simpl; [reflexivity|].
  rewrite (H x (or_introl eq_refl)), IH; [reflexivity|].
  intros y Hy. apply H. now right.
Qed.

(** The variants agree on every condition none of whose comparisons is a
    STRING_SIMILARITY. *)
Lemma variants_agree_without_STRING_SIMILARITY
  (rt : JSRuntime) (co : Collaborators) :
  forall condition variables,
    (forall cs c,
        comparisons condition = Some cs -> In c cs ->
        comparisonOperator c <> Some STRING_SIMILARITY) ->
    Packages.executeCondition condition variables
    = Part000.executeCondition condition variables.
Proof.
  intros [lo [cs|]] variables H; [|reflexivity].
  unfold Packages.executeCondition, Part000.executeCondition; simpl in *.
  destruct lo as [[|]|]; (apply every_ext || apply some_ext);
    intros c Hc; apply executeComparison_agree; eauto.
Qed.

(** C8, the code at the failing input.  On the string input "Hello" and the
    target [null] (the text "null") of a STRING_SIMILARITY comparison the
    packages variant throws a TypeError, from [value.split], and
    [compararValores] of the other variant returns false: a difference that
    is neither of metric nor of threshold. *)
Theorem variants_diverge_on_null_target :
  Packages.executeCondition
    (rt := Reference.runtime) (co := Reference.collaborators)
    (Examples.single STRING_SIMILARITY "null")
    (Examples.bindings (VString "Hello")) = Throw TypeError /\
  Part000.executeCondition
    (rt := Reference.runtime) (co := Reference.collaborators)
    (Examples.single STRING_SIMILARITY "null")
    (Examples.bindings (VString "Hello")) = Normal false.
Proof.
  split; reflexivity.
Qed.

(** ** Counterexamples to the claims as first stated *)

(** C1 as stated fails: a MATCHES_REGEX comparison whose target is the
    malformed pattern "[" makes [executeCondition] throw the SyntaxError of
    the RegExp constructor. *)
Lemma executeCondition_throws_on_malformed_regex :
  Packages.executeCondition
    (rt := Reference.runtime) (co := Reference.collaborators)
    (Examples.single MATCHES_REGEX "[")
    (Examples.bindings (VString "12a")) = Throw SyntaxError /\
  ~ (exists b : bool,
        Packages.executeCondition
          (rt := Reference.runtime) (co := Reference.collaborators)
          (Examples.single MATCHES_REGEX "[")
          (Examples.bindings (VString "12a")) = Normal b).
Proof.
  split; [reflexivity|]. intros [b H]. discriminate H.
Qed.

(** C4 as stated fails: NOT_MATCH_REGEX on the input "12a" with the invalid
    pattern "[" does not return true, it throws. *)
Lemma NOT_MATCH_REGEX_invalid_pattern_throws :
  Packages.executeComparison
    (rt := Reference.runtime) (co := Reference.collaborators)
    (Examples.bindings (VString "12a"))
    (Examples.comparisonOf "v" NOT_MATCH_REGEX "[") = Throw SyntaxError /\
  Packages.executeComparison
    (rt := Reference.runtime) (co := Reference.collaborators)
    (Examples.bindings (VString "12a"))
    (Examples.comparisonOf "v" NOT_MATCH_REGEX "[") <> Normal true.
Proof.
  split; [reflexivity|discriminate].
Qed.

(** ** The theorems at concrete inputs *)

Module Witness.

Import Examples.

Lemma v_nonempty : "v" <> EmptyString.
Proof. discriminate. Defined.

(** A condition with a regular expression that compiles and a
    STRING_SIMILARITY on a string target returns a boolean. *)
Lemma executeCondition_total_witness :
  let condition :=
    {| logicalOperator := Some OR;
       comparisons := Some [comparisonOf "v" MATCHES_REGEX "/^[0-9]+$/i";
                            comparisonOf "v" STRING_SIMILARITY "Hi|Hey"] |} in
  let variables := bindings (VString "12a") in
  (forall c,
      In c [comparisonOf "v" MATCHES_REGEX "/^[0-9]+$/i";
            comparisonOf "v" STRING_SIMILARITY "Hi|Hey"] ->
      patternsCompile (rt := Reference.runtime) (co := Reference.collaborators) variables c) /\
  (forall c,
      In c [comparisonOf "v" MATCHES_REGEX "/^[0-9]+$/i";
            comparisonOf "v" STRING_SIMILARITY "Hi|Hey"] ->
      similarityOnString (co := Reference.collaborators) variables c) /\
  (exists b, Part000.executeCondition (rt := Reference.runtime) (co := Reference.collaborators)
               condition variables = Normal b) /\
  (exists b, Packages.executeCondition (rt := Reference.runtime) (co := Reference.collaborators)
               condition variables = Normal b).
Proof.
  intros condition variables.
  assert (Hp : forall c,
             In c [comparisonOf "v" MATCHES_REGEX "/^[0-9]+$/i";
                   comparisonOf "v" STRING_SIMILARITY "Hi|Hey"] ->
             patternsCompile (rt := Reference.runtime) (co := Reference.collaborators) variables c).
  { intros c [<-|[<-|[]]] Hop s Hs.
    - destruct Hs as [[= <-]|[]]. eexists. vm_compute. reflexivity.
    - destruct Hop as [Hop|Hop]; discriminate Hop. }
  assert (Hs : forall c,
             In c [comparisonOf "v" MATCHES_REGEX "/^[0-9]+$/i";
                   comparisonOf "v" STRING_SIMILARITY "Hi|Hey"] ->
             similarityOnString (co := Reference.collaborators) variables c).
  { intros c [<-|[<-|[]]] Hop.
    - discriminate Hop.
    - eexists. reflexivity. }
  split; [exact Hp|]. split; [exact Hs|].
  destruct (executeCondition_total_when_patterns_compile
              (rt := Reference.runtime) (co := Reference.collaborators) condition variables Hp) as [H0 H1].
  split; [exact H0|exact (H1 Hs)].
Defined.

Lemma executeComparison_missing_field_witness :
  let comparison :=
    {| variableId := Some EmptyString; comparisonOperator := Some EQUAL;
       comparisonValue := Some "x" |} in
  (JSString.falsy (variableId comparison) = true \/
   comparisonOperator comparison = None) /\
  Packages.executeComparison (rt := Reference.runtime) (co := Reference.collaborators)
    (bindings (VString "x")) comparison = Normal false /\
  Part000.executeComparison (rt := Reference.runtime) (co := Reference.collaborators)
    (bindings (VString "x")) comparison = Normal false.
Proof.
  intros comparison. split; [left; reflexivity|].
  apply (executeComparison_missing_field (rt := Reference.runtime) (co := Reference.collaborators)).
  left. reflexivity.
Defined.

Lemma NOT_MATCH_REGEX_semantics_witness :
  "v" <> EmptyString /\
  "12a" <> EmptyString /\ "^[a-z]+$" <> EmptyString /\
  matchesRegex (rt := Reference.runtime) (Some "12a") (Some "^[a-z]+$") = Normal false /\
  matchesRegex_NOT_MATCH (rt := Reference.runtime) (Some "12a") (Some "^[a-z]+$")
  = Normal true /\
  (inputValueOf (bindings (VString "12a")) "v" = VString "12a" ->
   valueOf (co := Reference.collaborators) (bindings (VString "12a")) (Some "^[a-z]+$")
   = VString "^[a-z]+$" ->
   Packages.executeComparison (rt := Reference.runtime) (co := Reference.collaborators)
     (bindings (VString "12a")) (comparisonOf "v" MATCHES_REGEX "^[a-z]+$")
   = Normal false /\
   Packages.executeComparison (rt := Reference.runtime) (co := Reference.collaborators)
     (bindings (VString "12a")) (comparisonOf "v" NOT_MATCH_REGEX "^[a-z]+$")
   = Normal true).
Proof.
  assert (Ha : "12a" <> EmptyString) by discriminate.
  assert (Hb : "^[a-z]+$" <> EmptyString) by discriminate.
  split; [exact v_nonempty|]. split; [exact Ha|]. split; [exact Hb|].
  exact (proj2 (proj2 (proj2
           (NOT_MATCH_REGEX_semantics (rt := Reference.runtime) (co := Reference.collaborators)
              (bindings (VString "12a")) "v" (Some "^[a-z]+$") v_nonempty)))
           "12a" "^[a-z]+$" Ha Hb).
Defined.

Lemma GREATER_LESS_numeric_witness :
  "v" <> EmptyString /\
  (Packages.executeComparison
     (rt := Reference.runtime) (co := Reference.collaborators)
     (bindings (VString "10")) (comparisonOf "v" GREATER "2") = Normal true /\
   Packages.executeComparison
     (rt := Reference.runtime) (co := Reference.collaborators)
     (bindings (VString "10")) (comparisonOf "v" LESS "2") = Normal false) /\
  (isNaN (Reference.Number "abc") = true /\
   isNaN (Reference.Date_parse "abc") = true /\
   Packages.executeComparison
     (rt := Reference.runtime) (co := Reference.collaborators)
     (bindings (VString "abc")) (comparisonOf "v" GREATER "2") = Normal false /\
   Packages.executeComparison
     (rt := Reference.runtime) (co := Reference.collaborators)
     (bindings (VString "abc")) (comparisonOf "v" LESS "2") = Normal false) /\
  (Packages.executeComparison
     (rt := Reference.runtime) (co := Reference.collaborators)
     (bindings (VString "10")) (comparisonOf "v" GREATER "null") = Normal false /\
   Packages.executeComparison
     (rt := Reference.runtime) (co := Reference.collaborators)
     (bindings (VString "10")) (comparisonOf "v" LESS "null") = Normal false).
Proof.
  split; [exact v_nonempty|]. split; [|split].
  - exact (proj1 (proj2
             (GREATER_LESS_numeric
                (rt := Reference.runtime) (co := Reference.collaborators)
                (bindings (VString "10")) "v" (Some "2") v_nonempty))
             eq_refl eq_refl eq_refl eq_refl).
  - split; [reflexivity|]. split; [reflexivity|].
    exact (proj1 (proj2 (proj2
             (GREATER_LESS_numeric
                (rt := Reference.runtime) (co := Reference.collaborators)
                (bindings (VString "abc")) "v" (Some "2") v_nonempty)))
             "abc" (or_introl eq_refl) eq_refl eq_refl).
  - exact (proj2 (proj2 (proj2
             (GREATER_LESS_numeric
                (rt := Reference.runtime) (co := Reference.collaborators)
                (bindings (VString "10")) "v" (Some "null") v_nonempty)))
             (or_intror eq_refl)).
Defined.

Lemma STRING_SIMILARITY_semantics_witness :
  "v" <> EmptyString /\
  (forall s, inputValueOf (bindings (VList [Some "Hello"])) "v" <> VString s) /\
  (Packages.executeComparison
     (rt := Reference.runtime) (co := Reference.collaborators)
     (bindings (VList [Some "Hello"]))
     (comparisonOf "v" STRING_SIMILARITY "Hi|Hello|Hey") = Normal false /\
   Part000.executeComparison
     (rt := Reference.runtime) (co := Reference.collaborators)
     (bindings (VList [Some "Hello"]))
     (comparisonOf "v" STRING_SIMILARITY "Hi|Hello|Hey") = Normal false) /\
  (Part000.executeComparison
     (rt := Reference.runtime) (co := Reference.collaborators)
     (bindings (VString "Hello"))
     (comparisonOf "v" STRING_SIMILARITY "Hi|Hello|Hey") = Normal true <->
   exists c,
     In c ["Hi"; "Hello"; "Hey"] /\
     gt (Part000.compareStringsBagOfNumbers "Hello" c) lit_0_8 = true).
Proof.
  assert (Hns : forall s,
             inputValueOf (bindings (VList [Some "Hello"])) "v" <> VString s)
    by (intros s; discriminate).
  split; [exact v_nonempty|]. split; [exact Hns|]. split.
  - exact (proj1
             (proj1 STRING_SIMILARITY_semantics
                Reference.runtime Reference.collaborators
                (bindings (VList [Some "Hello"])) "v"
                (Some "Hi|Hello|Hey") v_nonempty)
             Hns).
  - exact (proj2 (proj2 (proj2
             (proj2
                (proj1 STRING_SIMILARITY_semantics
                   Reference.runtime Reference.collaborators
                   (bindings (VString "Hello")) "v"
                   (Some "Hi|Hello|Hey") v_nonempty)
                "Hello" "Hi|Hello|Hey" eq_refl eq_refl)))).
Defined.

Lemma IS_SET_IS_EMPTY_complement_witness :
  "v" <> EmptyString /\
  inputValueOf (bindings (VList [])) "v" = VList [] /\
  exists b,
    b = false /\
    Packages.executeComparison
      (rt := Reference.runtime) (co := Reference.collaborators)
      (bindings (VList [])) (comparisonOf "v" IS_SET "") = Normal b /\
    Packages.executeComparison
      (rt := Reference.runtime) (co := Reference.collaborators)
      (bindings (VList [])) (comparisonOf "v" IS_EMPTY "") = Normal (negb b) /\
    Part000.executeComparison
      (rt := Reference.runtime) (co := Reference.collaborators)
      (bindings (VList [])) (comparisonOf "v" IS_SET "") = Normal b /\
    Part000.executeComparison
      (rt := Reference.runtime) (co := Reference.collaborators)
      (bindings (VList [])) (comparisonOf "v" IS_EMPTY "") = Normal (negb b).
Proof.
  split; [exact v_nonempty|]. split; [reflexivity|].
  exact (IS_SET_IS_EMPTY_complement
           (rt := Reference.runtime) (co := Reference.collaborators)
           (bindings (VList [])) "v" (Some "") (Some "") (VList [])
           v_nonempty eq_refl).
Defined.

Lemma executeCondition_not_AND_is_OR_witness :
  let cs := [comparisonOf "v" EQUAL "41"; comparisonOf "v" EQUAL "42"] in
  (None : option LogicalOperator) <> Some AND /\
  (Packages.executeCondition
     (rt := Reference.runtime) (co := Reference.collaborators)
     {| logicalOperator := None; comparisons := Some cs |}
     (bindings (VString "42")) = Normal true <->
   exists c,
     In c cs /\
     Packages.executeComparison
       (rt := Reference.runtime) (co := Reference.collaborators)
       (bindings (VString "42")) c = Normal true).
Proof.
  intros cs.
  assert (Hlo : (None : option LogicalOperator) <> Some AND) by discriminate.
  split; [exact Hlo|].
  refine (proj2 (proj2 (proj2
            (executeCondition_not_AND_is_OR
               (rt := Reference.runtime) (co := Reference.collaborators)
               None cs (bindings (VString "42")) Hlo)) _)).
  intros c [<-|[<-|[]]]; eexists; reflexivity.
Defined.

End Witness.

(** * Further properties of the code *)

(** ** [compare]: the broadcasting rule *)

Lemma every_pure_forallb {A : Type} (f : A -> bool) (l : list A) :
  every (fun x => Normal (f x)) l = Normal (List.forallb f l).
Proof.
  induction l as [|x r IH]; simpl; [reflexivity|].
  destruct (f x); simpl; auto.
Qed.

Lemma every_nested_pure {A B : Type} (f : A -> B -> bool)
  (la : list A) (lb : list B) :
  every (fun a => every (fun b => Normal (f a b)) lb) la
  = Normal (List.forallb (fun a => List.forallb (f a) lb) la).
Proof.
  rewrite <- every_pure_forallb. apply every_ext.
  intros a _. apply every_pure_forallb.
Qed.

Lemma some_nested_pure {A B : Type} (f : A -> B -> bool)
  (la : list A) (lb : list B) :
  some (fun a => some (fun b => Normal (f a b)) lb) la
  = Normal (List.existsb (fun a => List.existsb (f a) lb) la).
Proof.
  rewrite <- some_pure_existsb. apply some_ext.
  intros a _. apply some_pure_existsb.
Qed.

Lemma forallb_pointwise {A : Type} (f g : A -> bool) (l : list A) :
  (forall x, f x = g x) -> List.forallb f l = List.forallb g l.
Proof. intros H. induction l; simpl; congruence. Qed.

Lemma existsb_pointwise {A : Type} (f g : A -> bool) (l : list A) :
  (forall x, f x = g x) -> List.existsb f l = List.existsb g l.
Proof. intros H. induction l; simpl; congruence. Qed.

Section Broadcast.

Context {rt : JSRuntime}.

Lemma compare_pure_every (f : option string -> option string -> bool)
  (a b : VariableValue) :
  compare (pure f) a b Every
  = Normal (List.forallb (fun x => List.forallb (f x) (elementsOf b))
                         (elementsOf a)).
Proof.
  unfold pure.
  destruct a as [|sa|la], b as [|sb|lb]; simpl;
    rewrite ?andb_true_r; try reflexivity.
  - apply every_pure_forallb.
  - apply every_pure_forallb.
  - rewrite every_pure_forallb. f_equal. apply forallb_pointwise.
    intros x. now rewrite andb_true_r.
  - rewrite every_pure_forallb. f_equal. apply forallb_pointwise.
    intros x. now rewrite andb_true_r.
  - apply every_nested_pure.
Qed.

Lemma compare_pure_some (f : option string -> option string -> bool)
  (a b : VariableValue) :
  compare (pure f) a b Some_
  = Normal (List.existsb (fun x => List.existsb (f x) (elementsOf b))
                         (elementsOf a)).
Proof.
  unfold pure.
  destruct a as [|sa|la], b as [|sb|lb]; simpl;
    rewrite ?orb_false_r; try reflexivity.
  - apply some_pure_existsb.
  - apply some_pure_existsb.
  - rewrite some_pure_existsb. f_equal. apply existsb_pointwise.
    intros x. now rewrite orb_false_r.
  - rewrite some_pure_existsb. f_equal. apply existsb_pointwise.
    intros x. now rewrite orb_false_r.
  - apply some_nested_pure.
Qed.

(** X1.  With a callback that cannot throw, [compare] is one rule for its
    four shapes of operands: a scalar or null stands for the list of that
    one element, and the result is the callback on all pairs, reduced with
    "and" for every and with "or" for some. *)
Theorem compare_all_pairs :
  forall (f : option string -> option string -> bool) (a b : VariableValue),
    compare (pure f) a b Every
    = Normal (List.forallb (fun x => List.forallb (f x) (elementsOf b))
                           (elementsOf a)) /\
    compare (pure f) a b Some_
    = Normal (List.existsb (fun x => List.existsb (f x) (elementsOf b))
                           (elementsOf a)).
Proof.
  intros f a b. split; [apply compare_pure_every|apply compare_pure_some].
Qed.

Lemma every_const_true {A : Type} (l : list A) :
  every (fun _ : A => Normal true) l = Normal true.
Proof. induction l; simpl; auto. Qed.

Lemma some_const_false {A : Type} (l : list A) :
  some (fun _ : A => Normal false) l = Normal false.
Proof. induction l; simpl; auto. Qed.

(** X2.  When one operand of [compare] is the empty array the callback is
    never called: the result is true for every and false for some, whatever
    the other operand and even for a callback that would throw. *)
Theorem compare_empty_array :
  forall (compareStrings : option string -> option string -> completion bool)
         (a b : VariableValue) (type : ReduceType),
    a = VList [] \/ b = VList [] ->
    compare compareStrings a b type
    = Normal match type with Every => true | Some_ => false end.
Proof.
  intros cs a b type [-> | ->].
  - destruct b, type; reflexivity.
  - destruct a as [|s|la], type; simpl; try reflexivity.
    + apply every_const_true.
    + apply some_const_false.
Qed.

End Broadcast.

(** ** The cases of the switch *)

Section Operators.

Context {rt : JSRuntime} {co : Collaborators}.

(** The comparison on [vid] with operator [op] and right-hand side
    [text]. *)
Local Notation "'comparison_' vid op text" :=
  {| variableId := Some vid; comparisonOperator := Some op;
     comparisonValue := text |}
  (at level 10, vid at level 9, op at level 9, text at level 9).

Ltac past_guards Hvid :=
  let c := fresh "c" in
  let r := fresh "r" in
  destruct (nonempty_String _ Hvid) as (c & r & ->);
  unfold Packages.executeComparison; cbn [variableId comparisonOperator
                                            comparisonValue].

Lemma equalStrings_notEqualStrings (a b : option string) :
  notEqualStrings a b = negb (equalStrings a b).
Proof. destruct a, b; reflexivity. Qed.

Lemma contains_notContains (a b : option string) :
  notContains a b = negb (contains a b).
Proof.
  destruct a as [a|], b as [b|]; try reflexivity.
  unfold notContains, contains.
  destruct (JSString.falsy (Some b) || JSString.falsy (Some a)); reflexivity.
Qed.

Lemma scalar_elementsOf (v : VariableValue) :
  (forall l, v <> VList l) -> exists x, elementsOf v = [x].
Proof.
  destruct v as [|s|l]; intros H; simpl; eauto. now destruct (H l).
Qed.

(** X3.  When neither the input value nor the right-hand side is an array,
    NOT_EQUAL is the negation of EQUAL, null sides included. *)
Theorem NOT_EQUAL_negates_EQUAL_on_scalars :
  forall variables vid text,
    vid <> EmptyString ->
    (forall l, inputValueOf variables vid <> VList l) ->
    (forall l, valueOf variables text <> VList l) ->
    exists b,
      Packages.executeComparison variables (comparison_ vid EQUAL text)
      = Normal b /\
      Packages.executeComparison variables (comparison_ vid NOT_EQUAL text)
      = Normal (negb b).
Proof.
  intros variables vid text Hvid Hi Hv. past_guards Hvid.
  rewrite !compare_pure_every.
  destruct (scalar_elementsOf _ Hi) as [x ->].
  destruct (scalar_elementsOf _ Hv) as [y ->].
  exists (equalStrings x y). simpl.
  rewrite equalStrings_notEqualStrings, !andb_true_r. auto.
Qed.

(** X4.  When neither side is an array, NOT_CONTAINS is the negation of
    CONTAINS, also when a side is null or the empty string: then CONTAINS
    is false and NOT_CONTAINS is true. *)
Theorem NOT_CONTAINS_negates_CONTAINS_on_scalars :
  forall variables vid text,
    vid <> EmptyString ->
    (forall l, inputValueOf variables vid <> VList l) ->
    (forall l, valueOf variables text <> VList l) ->
    exists b,
      Packages.executeComparison variables (comparison_ vid CONTAINS text)
      = Normal b /\
      Packages.executeComparison variables (comparison_ vid NOT_CONTAINS text)
      = Normal (negb b) /\
      (JSString.falsy
         match inputValueOf variables vid with
         | VString a => Some a
         | _ => None
         end = true \/
       JSString.falsy
         match valueOf variables text with
         | VString v => Some v
         | _ => None
         end = true ->
       b = false).
Proof.
  intros variables vid text Hvid Hi Hv. past_guards Hvid.
  destruct (inputValueOf variables (String c r)) as [|a|l];
    [| |now destruct (Hi l)];
    (destruct (valueOf variables text) as [|v|l'];
     [| |now destruct (Hv l')]);
    unfold compare, pure; rewrite contains_notContains;
    eexists; (split; [reflexivity|split; [reflexivity|]]);
    intros [H|H]; try reflexivity; try discriminate H;
    unfold contains; try rewrite H; try reflexivity.
  now rewrite orb_true_r.
Qed.

Lemma forallb_negb_existsb {A : Type} (f : A -> bool) (l : list A) :
  List.forallb (fun x => negb (f x)) l = negb (List.existsb f l).
Proof.
  induction l as [|x r IH]; simpl; [reflexivity|].
  rewrite IH. now destruct (f x).
Qed.

(** X5.  On an array of strings against a string target, NOT_CONTAINS is
    the negation of CONTAINS: no element equals the target up to
    normalisation. *)
Theorem NOT_CONTAINS_negates_CONTAINS_on_string_arrays :
  forall variables vid text la v,
    vid <> EmptyString ->
    inputValueOf variables vid = VList (List.map Some la) ->
    valueOf variables text = VString v ->
    let member :=
      List.existsb (fun a => String.eqb (normalize a) (normalize v)) la in
    Packages.executeComparison variables (comparison_ vid CONTAINS text)
    = Normal member /\
    Packages.executeComparison variables (comparison_ vid NOT_CONTAINS text)
    = Normal (negb member).
Proof.
  intros variables vid text la v Hvid Hi Hv member. past_guards Hvid.
  rewrite Hi, Hv, compare_pure_some, compare_pure_every.
  cbn [elementsOf]. unfold member. clear Hi member.
  rewrite <- forallb_negb_existsb. split; f_equal.
  - rewrite (existsb_pointwise _ (fun x => equal x (Some v)))
      by (intros x; cbn; apply orb_false_r).
    induction la as [|a la IH]; [reflexivity|].
    cbn [List.map List.existsb]. now rewrite IH.
  - rewrite (forallb_pointwise _ (fun x => notEqual x (Some v)))
      by (intros x; cbn; apply andb_true_r).
    induction la as [|a la IH]; [reflexivity|].
    cbn [List.map List.forallb]. now rewrite IH.
Qed.

Lemma equalStrings_sym (a b : option string) :
  equalStrings a b = equalStrings b a.
Proof. destruct a, b; simpl; auto using String.eqb_sym. Qed.

Lemma forallb_swap {A B : Type} (f : A -> B -> bool)
  (la : list A) (lb : list B) :
  List.forallb (fun a => List.forallb (f a) lb) la
  = List.forallb (fun b => List.forallb (fun a => f a b) la) lb.
Proof.
  induction la as [|a la IH]; simpl.
  - induction lb; simpl; auto.
  - rewrite IH. clear IH.
    induction lb as [|b lb IH]; simpl; [reflexivity|].
    rewrite <- IH.
    destruct (f a b), (List.forallb (f a) lb),
      (List.forallb (fun a0 => f a0 b) la); reflexivity.
Qed.

(** X6.  EQUAL and NOT_EQUAL do not depend on which side is the input
    value: exchanging the input value and the right-hand side, of any
    shapes, gives the same result. *)
Theorem EQUAL_symmetric :
  forall variables1 vid1 text1 variables2 vid2 text2,
    vid1 <> EmptyString -> vid2 <> EmptyString ->
    inputValueOf variables1 vid1 = valueOf variables2 text2 ->
    valueOf variables1 text1 = inputValueOf variables2 vid2 ->
    Packages.executeComparison variables1 (comparison_ vid1 EQUAL text1)
    = Packages.executeComparison variables2 (comparison_ vid2 EQUAL text2) /\
    Packages.executeComparison variables1 (comparison_ vid1 NOT_EQUAL text1)
    = Packages.executeComparison variables2 (comparison_ vid2 NOT_EQUAL text2).
Proof.
  intros variables1 vid1 text1 variables2 vid2 text2 H1 H2 Hi Hv.
  destruct (nonempty_String _ H1) as (c1 & r1 & ->).
  destruct (nonempty_String _ H2) as (c2 & r2 & ->).
  unfold Packages.executeComparison;
    cbn [variableId comparisonOperator comparisonValue].
  rewrite !compare_pure_every, Hi, Hv. split; f_equal.
  - rewrite forallb_swap. apply forallb_pointwise. intros x.
    apply forallb_pointwise. intros y. apply equalStrings_sym.
  - rewrite forallb_swap. apply forallb_pointwise. intros x.
    apply forallb_pointwise. intros y.
    now rewrite !equalStrings_notEqualStrings, equalStrings_sym.
Qed.

Lemma startsWith_includes (s t : string) :
  JSString.startsWith s t = true -> JSString.includes s t = true.
Proof.
  unfold JSString.startsWith. intros H. destruct s; cbn [JSString.includes]; now rewrite H.
Qed.

Lemma prefix_of_substring (t s : string) :
  String.substring 0 (String.length t) s = t -> String.prefix t s = true.
Proof.
  revert s. induction t as [|a t IH]; intros s H; [now destruct s|].
  destruct s as [|c s]; simpl in H; [discriminate|].
  injection H as -> H. simpl.
  destruct (ascii_dec a a); [auto|congruence].
Qed.

Lemma substring_includes (n : nat) :
  forall s t,
    String.substring n (String.length t) s = t ->
    JSString.includes s t = true.
Proof.
  induction n as [|n IH]; intros s t H.
  - apply prefix_of_substring in H.
    destruct s; cbn [JSString.includes]; now rewrite H.
  - destruct s as [|c s]; simpl in H.
    + subst t. reflexivity.
    + cbn [JSString.includes]. rewrite (IH s t H). apply orb_true_r.
Qed.

Lemma endsWith_includes (s t : string) :
  JSString.endsWith s t = true -> JSString.includes s t = true.
Proof.
  unfold JSString.endsWith. intros H.
  apply andb_true_iff in H as [_ H]. apply String.eqb_eq in H.
  eapply substring_includes; eassumption.
Qed.

(** X7.  On a string input and a string target, STARTS_WITH implies
    CONTAINS and ENDS_WITH implies CONTAINS. *)
Theorem STARTS_WITH_ENDS_WITH_imply_CONTAINS :
  forall variables vid text a v,
    vid <> EmptyString ->
    inputValueOf variables vid = VString a ->
    valueOf variables text = VString v ->
    Packages.executeComparison variables (comparison_ vid STARTS_WITH text)
    = Normal true \/
    Packages.executeComparison variables (comparison_ vid ENDS_WITH text)
    = Normal true ->
    Packages.executeComparison variables (comparison_ vid CONTAINS text)
    = Normal true.
Proof.
  intros variables vid text a v Hvid Hi Hv. past_guards Hvid.
  rewrite Hi, Hv. unfold compare, pure, startsWith, endsWith, contains.
  destruct (JSString.falsy (Some v) || JSString.falsy (Some a)).
  - intros [H|H]; discriminate H.
  - intros [[= H]|[= H]]; f_equal;
      auto using startsWith_includes, endsWith_includes.
Qed.

Lemma ordering_mirror (x y : VariableValue) :
  ordering gt x y = ordering lt y x.
Proof.
  unfold ordering. rewrite (orb_comm (isNotDefined x)).
  destruct x, y; reflexivity.
Qed.

(** X8.  GREATER is LESS with the sides exchanged, for all shapes of the
    two sides. *)
Theorem GREATER_mirrors_LESS :
  forall variables1 vid1 text1 variables2 vid2 text2,
    vid1 <> EmptyString -> vid2 <> EmptyString ->
    inputValueOf variables1 vid1 = valueOf variables2 text2 ->
    valueOf variables1 text1 = inputValueOf variables2 vid2 ->
    Packages.executeComparison variables1 (comparison_ vid1 GREATER text1)
    = Packages.executeComparison variables2 (comparison_ vid2 LESS text2) /\
    Packages.executeComparison variables1 (comparison_ vid1 LESS text1)
    = Packages.executeComparison variables2 (comparison_ vid2 GREATER text2).
Proof.
  intros variables1 vid1 text1 variables2 vid2 text2 H1 H2 Hi Hv.
  destruct (nonempty_String _ H1) as (c1 & r1 & ->).
  destruct (nonempty_String _ H2) as (c2 & r2 & ->).
  unfold Packages.executeComparison;
    cbn [variableId comparisonOperator comparisonValue].
  rewrite Hi, Hv. split; f_equal.
  - apply ordering_mirror.
  - symmetry. apply ordering_mirror.
Qed.

Lemma gt_irrefl (x : number) : gt x x = false.
Proof.
  unfold gt, SFltb, SFcompare.
  destruct x as [[|]|[|]| |[|] m e]; try reflexivity.
  - rewrite Z.compare_refl.
    change (Pos.compare_cont Eq m m) with (Pos.compare m m).
    now rewrite Pos.compare_refl.
  - rewrite Z.compare_refl.
    change (Pos.compare_cont Eq m m) with (Pos.compare m m).
    now rewrite Pos.compare_refl.
Qed.

Lemma gt_asym (x y : number) : gt x y = true -> gt y x = false.
Proof.
  intros H. destruct (gt y x) eqn:E; [|reflexivity].
  pose proof (gt_trans _ _ _ H E) as T. now rewrite gt_irrefl in T.
Qed.

Lemma ordering_exclusive (x y : VariableValue) :
  ordering gt x y = true -> ordering lt x y = false.
Proof.
  unfold ordering.
  destruct (isNotDefined x || isNotDefined y); [discriminate|].
  destruct x, y; try discriminate; apply gt_asym.
Qed.

(** X9.  GREATER and LESS of the same two sides are never both true. *)
Theorem GREATER_LESS_exclusive :
  forall variables vid text,
    vid <> EmptyString ->
    Packages.executeComparison variables (comparison_ vid GREATER text)
    = Normal true ->
    Packages.executeComparison variables (comparison_ vid LESS text)
    = Normal false.
Proof.
  intros variables vid text Hvid. past_guards Hvid.
  intros [= H]. f_equal. now apply ordering_exclusive.
Qed.

(** X10.  MATCHES_REGEX and NOT_MATCH_REGEX construct the regular
    expression only when the input and the target are both non-empty
    strings: on scalar sides of which one is null or empty both operators
    answer false, whatever the other side is, a malformed pattern
    included. *)
Theorem regex_operators_false_on_empty_side :
  forall variables vid text,
    vid <> EmptyString ->
    (forall l, inputValueOf variables vid <> VList l) ->
    (forall l, valueOf variables text <> VList l) ->
    isDefined (inputValueOf variables vid) &&
    (0 <? lengthOf (inputValueOf variables vid))%nat &&
    isDefined (valueOf variables text) &&
    (0 <? lengthOf (valueOf variables text))%nat = false ->
    Packages.executeComparison variables (comparison_ vid MATCHES_REGEX text)
    = Normal false /\
    Packages.executeComparison variables (comparison_ vid NOT_MATCH_REGEX text)
    = Normal false.
Proof.
  intros variables vid text Hvid Hi Hv. past_guards Hvid.
  destruct (inputValueOf variables (String c r)) as [|a|l];
    [| |now destruct (Hi l)];
    (destruct (valueOf variables text) as [|v|l'];
     [| |now destruct (Hv l')]);
    unfold compare, matchesRegex, matchesRegex_NOT_MATCH; simpl;
    try (intros _; split; reflexivity).
  destruct a as [|ca a], v as [|cv v]; simpl;
    try (intros _; split; reflexivity).
  discriminate.
Qed.

End Operators.

(** ** The aggregation and the exceptions *)

Lemma every_false_iff {A : Type} (f : A -> completion bool) (l : list A) :
  every f l = Normal false <->
  exists pre x post,
    l = pre ++ x :: post /\
    (forall y, In y pre -> f y = Normal true) /\
    f x = Normal false.
Proof.
  induction l as [|x r IH]; simpl.
  - split; [discriminate|].
    intros (pre & y & post & E & _). now destruct pre.
  - split.
    + destruct (f x) as [[|]|e] eqn:E; try discriminate.
      * intros H. apply IH in H as (pre & y & post & -> & Hpre & Hy).
        exists (x :: pre), y, post. repeat split; auto.
        intros z [<-|Hz]; auto.
      * intros _. exists [], x, r. repeat split; [intros ? []|exact E].
    + intros (pre & y & post & E & Hpre & Hy).
      destruct pre as [|p pre]; simpl in E; injection E as E1 E2; subst.
      * now rewrite Hy.
      * rewrite (Hpre p (or_introl eq_refl)). apply IH.
        exists pre, y, post. repeat split; auto.
        intros z Hz. apply Hpre. now right.
Qed.

Lemma every_true_iff_total {A : Type} (f : A -> completion bool)
  (l : list A) :
  (forall x, In x l -> exists b, f x = Normal b) ->
  (every f l = Normal true <-> forall x, In x l -> f x = Normal true).
Proof.
  induction l as [|x r IH]; intros H; simpl.
  - split; [intros _ ? []|reflexivity].
  - destruct (H x (or_introl eq_refl)) as [[|] E]; rewrite E.
    + rewrite IH by (intros y Hy; apply H; now right).
      split.
      * intros Hr y [<-|Hy]; auto.
      * intros Hall y Hy. apply Hall. now right.
    + split; [discriminate|].
      intros Hall. rewrite (Hall x (or_introl eq_refl)) in E. discriminate E.
Qed.

Lemma every_Throw {A : Type} (f : A -> completion bool) (l : list A)
  (e : Error) :
  every f l = Throw e -> exists x, In x l /\ f x = Throw e.
Proof.
  induction l as [|x r IH]; simpl; [discriminate|].
  destruct (f x) as [[|]|e'] eqn:E; try discriminate.
  - intros H. destruct (IH H) as (y & Hy & Ey). exists y. auto.
  - intros [= ->]. exists x. auto.
Qed.

Lemma some_Throw {A : Type} (f : A -> completion bool) (l : list A)
  (e : Error) :
  some f l = Throw e -> exists x, In x l /\ f x = Throw e.
Proof.
  induction l as [|x r IH]; simpl; [discriminate|].
  destruct (f x) as [[|]|e'] eqn:E; try discriminate.
  - intros H. destruct (IH H) as (y & Hy & Ey). exists y. auto.
  - intros [= ->]. exists x. auto.
Qed.

Section Aggregation.

Context {rt : JSRuntime} {co : Collaborators}.

(** X11.  With the logical operator AND the condition is the conjunction
    of its comparisons as [Array.prototype.every] computes it: false exactly
    when some comparison is false and all those before it are true, so
    that the comparisons after the first false one are not evaluated; when
    no comparison throws, true exactly when all comparisons are true. *)
Theorem executeCondition_AND :
  forall comparisons variables,
    let result :=
      Packages.executeCondition
        {| logicalOperator := Some AND; comparisons := Some comparisons |}
        variables in
    (result = Normal false <->
     exists pre c post,
       comparisons = pre ++ c :: post /\
       (forall c', In c' pre ->
                   Packages.executeComparison variables c' = Normal true) /\
       Packages.executeComparison variables c = Normal false) /\
    ((forall c, In c comparisons ->
                exists b, Packages.executeComparison variables c = Normal b) ->
     (exists b, result = Normal b) /\
     (result = Normal true <->
      forall c, In c comparisons ->
                Packages.executeComparison variables c = Normal true)).
Proof.
  intros cs variables result. unfold result, Packages.executeCondition.
  cbn [comparisons logicalOperator]. split.
  - apply every_false_iff.
  - intros H. split; [now apply every_Normal|now apply every_true_iff_total].
Qed.

Lemma compare_Throw
  (compareStrings : option string -> option string -> completion bool)
  (a b : VariableValue) (type : ReduceType) (e : Error) :
  compare compareStrings a b type = Throw e ->
  exists x y, compareStrings x y = Throw e.
Proof.
  destruct a as [|sa|la], b as [|sb|lb], type; simpl; intros H; eauto;
    repeat match goal with
           | H : every _ _ = Throw _ |- _ =>
               apply every_Throw in H; destruct H as (? & _ & H)
           | H : some _ _ = Throw _ |- _ =>
               apply some_Throw in H; destruct H as (? & _ & H)
           end; eauto.
Qed.

Lemma compare_pure_no_Throw (f : option string -> option string -> bool)
  (a b : VariableValue) (type : ReduceType) (e : Error) :
  compare (pure f) a b type <> Throw e.
Proof.
  intros H. apply compare_Throw in H as (x & y & H). discriminate H.
Qed.

Lemma matchesRegex_Throw (x y : option string) (e : Error) :
  matchesRegex x y = Throw e \/ matchesRegex_NOT_MATCH x y = Throw e ->
  e = SyntaxError.
Proof.
  unfold matchesRegex, matchesRegex_NOT_MATCH, newRegExpTest.
  destruct x as [a|], y as [b|]; try (intros [H|H]; discriminate H).
  destruct (JSString.falsy (Some b) || JSString.falsy (Some a));
    try (intros [H|H]; discriminate H).
  destruct (JSString.falsy (Some (pattern (preprocessRegex b))));
    try (intros [H|H]; discriminate H).
  destruct (RegExp_new _ _); intros [H|H]; congruence.
Qed.

Lemma Part000_executeComparison_Throw (variables : list Variable_)
  (c : Comparison) (e : Error) :
  Part000.executeComparison variables c = Throw e ->
  e = SyntaxError /\
  (comparisonOperator c = Some MATCHES_REGEX \/
   comparisonOperator c = Some NOT_MATCH_REGEX).
Proof.
  unfold Part000.executeComparison.
  destruct (variableId c) as [[|a s]|]; try discriminate.
  destruct (comparisonOperator c) as [[]|]; try discriminate; intros H;
    try (destruct (inputValueOf variables (String a s));
         now apply compare_pure_no_Throw in H);
    try (now apply compare_pure_no_Throw in H).
  - apply compare_Throw in H as (x & y & H).
    split; [eapply matchesRegex_Throw; eauto|auto].
  - apply compare_Throw in H as (x & y & H).
    split; [eapply matchesRegex_Throw; eauto|auto].
Qed.

Lemma Packages_executeComparison_Throw (variables : list Variable_)
  (c : Comparison) (e : Error) :
  Packages.executeComparison variables c = Throw e ->
  (e = SyntaxError /\
   (comparisonOperator c = Some MATCHES_REGEX \/
    comparisonOperator c = Some NOT_MATCH_REGEX)) \/
  (e = TypeError /\ comparisonOperator c = Some STRING_SIMILARITY).
Proof.
  destruct (comparisonOperator c) as [op|] eqn:Eop.
  - destruct op;
      try (rewrite executeComparison_agree by congruence;
           intros H; apply Part000_executeComparison_Throw in H;
           rewrite Eop in H; now left).
    unfold Packages.executeComparison. rewrite Eop.
    destruct (variableId c) as [[|a s]|]; try discriminate.
    destruct (inputValueOf variables (String a s)); try discriminate.
    destruct (valueOf variables (comparisonValue c)); try discriminate;
      intros [= <-]; right; auto.
  - rewrite executeComparison_agree by congruence.
    intros H. apply Part000_executeComparison_Throw in H.
    rewrite Eop in H. now left.
Qed.

(** X12.  The only exceptions [executeCondition] lets out: in the part_000
    variant a SyntaxError, and then the condition holds a MATCHES_REGEX or
    NOT_MATCH_REGEX comparison; in the packages variant that, or a TypeError
    and then the condition holds a STRING_SIMILARITY comparison. *)
Theorem executeCondition_exceptions :
  forall condition variables e,
    (Part000.executeCondition condition variables = Throw e ->
     e = SyntaxError /\
     exists cs c,
       comparisons condition = Some cs /\ In c cs /\
       (comparisonOperator c = Some MATCHES_REGEX \/
        comparisonOperator c = Some NOT_MATCH_REGEX)) /\
    (Packages.executeCondition condition variables = Throw e ->
     exists cs c,
       comparisons condition = Some cs /\ In c cs /\
       ((e = SyntaxError /\
         (comparisonOperator c = Some MATCHES_REGEX \/
          comparisonOperator c = Some NOT_MATCH_REGEX)) \/
        (e = TypeError /\ comparisonOperator c = Some STRING_SIMILARITY))).
Proof.
  intros [lo [cs|]] variables e;
    unfold Part000.executeCondition, Packages.executeCondition;
    cbn [comparisons logicalOperator]; [|split; discriminate].
  split; intros H.
  - assert (exists c, In c cs /\ Part000.executeComparison variables c = Throw e)
      as (c & Hc & Ec)
      by (destruct lo as [[|]|]; auto using every_Throw, some_Throw).
    apply Part000_executeComparison_Throw in Ec as [-> Hop].
    split; [reflexivity|]. exists cs, c. auto.
  - assert (exists c, In c cs /\ Packages.executeComparison variables c = Throw e)
      as (c & Hc & Ec)
      by (destruct lo as [[|]|]; auto using every_Throw, some_Throw).
    apply Packages_executeComparison_Throw in Ec.
    exists cs, c. auto.
Qed.

End Aggregation.

(** ** The two sides of a comparison *)

Section Sides.

Context {co : Collaborators}.

(** X13.  The right-hand side is null exactly when the [value] of the
    comparison is the text "undefined" or the text "null"; every other
    text, and an absent one, gives a string or an array. *)
Theorem valueOf_null_iff :
  forall variables text,
    valueOf variables text = VNull <->
    text = Some "undefined" \/ text = Some "null".
Proof.
  intros variables text. unfold valueOf. split.
  - destruct (JSString.strictEq text (Some "undefined")) eqn:E1.
    + intros _. left. destruct text as [t|]; [|discriminate].
      apply String.eqb_eq in E1. now subst.
    + destruct (JSString.strictEq text (Some "null")) eqn:E2.
      * intros _. right. destruct text as [t|]; [|discriminate].
        apply String.eqb_eq in E2. now subst.
      * simpl. destruct (findUniqueVariable variables text) as [v|];
          [destruct (value v)|]; discriminate.
  - intros [-> | ->]; reflexivity.
Qed.

(** X14.  The input value is that of the first variable with the
    identifier of the comparison, later ones being ignored, and null when
    no variable has it. *)
Theorem inputValueOf_first_binding :
  forall variableId,
    (forall variables,
        (forall v, In v variables -> id v <> variableId) ->
        inputValueOf variables variableId = VNull) /\
    (forall before v after,
        (forall w, In w before -> id w <> variableId) ->
        id v = variableId ->
        inputValueOf (before ++ v :: after) variableId = value v).
Proof.
  intros k. unfold inputValueOf. split.
  - intros variables H. induction variables as [|w r IH]; [reflexivity|].
    simpl. destruct (String.eqb_spec (id w) k) as [E|_].
    + now destruct (H w (or_introl eq_refl)).
    + apply IH. intros v Hv. apply H. now right.
  - intros before v after H Hv.
    induction before as [|w r IH]; simpl.
    + now rewrite Hv, String.eqb_refl.
    + destruct (String.eqb_spec (id w) k) as [E|_].
      * now destruct (H w (or_introl eq_refl)).
      * apply IH. intros x Hx. apply H. now right.
Qed.

End Sides.

(** ** [preprocessRegex] *)

Section PreprocessRegex.

Context {rt : JSRuntime}.

Lemma closing_sound (s p f : string) :
  closing s = Some (p, f) ->
  s = (p ++ String "/" f)%string /\
  allFlags f = true /\
  forall c, In c (list_ascii_of_string p) -> isLineTerminator c = false.
Proof.
  revert p f. induction s as [|c r IH]; intros p f; simpl; [discriminate|].
  destruct (isLineTerminator c) eqn:Ec.
  - destruct (Ascii.eqb c "/" && allFlags r) eqn:E; [|discriminate].
    intros [= <- <-]. apply andb_true_iff in E as [E1 E2].
    apply Ascii.eqb_eq in E1. subst c. repeat split; auto. intros ? [].
  - destruct (closing r) as [[p' f']|] eqn:Er.
    + intros [= <- <-]. destruct (IH p' f' eq_refl) as (-> & Hf & Hp).
      repeat split; auto. intros d [<-|Hd]; auto.
    + destruct (Ascii.eqb c "/" && allFlags r) eqn:E; [|discriminate].
      intros [= <- <-]. apply andb_true_iff in E as [E1 E2].
      apply Ascii.eqb_eq in E1. subst c. repeat split; auto. intros ? [].
Qed.

Lemma regexWithFlags_sound (s p f : string) :
  regexWithFlags s = Some (p, f) ->
  exists before, s = (before ++ String "/" (p ++ String "/" f))%string.
Proof.
  induction s as [|c r IH]; simpl; [discriminate|].
  destruct (Ascii.eqb c "/") eqn:Ec.
  - destruct (closing r) as [[[|a q] g]|] eqn:Er.
    + intros H. destruct (IH H) as [b ->]. now exists (String c b).
    + intros [= <- <-]. apply closing_sound in Er as (-> & _).
      apply Ascii.eqb_eq in Ec. subst c. now exists EmptyString.
    + intros H. destruct (IH H) as [b ->]. now exists (String c b).
  - intros H. destruct (IH H) as [b ->]. now exists (String c b).
Qed.

Lemma regexWithFlags_parts (s p f : string) :
  regexWithFlags s = Some (p, f) ->
  allFlags f = true /\
  forall c, In c (list_ascii_of_string p) -> isLineTerminator c = false.
Proof.
  induction s as [|c r IH]; simpl; [discriminate|].
  destruct (Ascii.eqb c "/").
  - destruct (closing r) as [[[|a q] g]|] eqn:Er; auto.
    intros [= <- <-]. now apply closing_sound in Er as (_ & Hf & Hp).
  - exact IH.
Qed.

(** X15.  What [preprocessRegex] returns.  Without flags, the pattern is
    the whole string.  With flags [f], the string is some text, a slash,
    the pattern, a slash and [f]; the pattern is not empty and holds no
    line terminator, and [f] holds only the letters g, i, m, u, y. *)
Theorem preprocessRegex_sound :
  forall regex,
    match flags (preprocessRegex regex) with
    | None => pattern (preprocessRegex regex) = regex
    | Some f =>
        let p := pattern (preprocessRegex regex) in
        (exists before, regex = (before ++ String "/" (p ++ String "/" f))%string) /\
        p <> EmptyString /\
        allFlags f = true /\
        (forall c, In c (list_ascii_of_string p) ->
                   isLineTerminator c = false)
    end.
Proof.
  intros regex. unfold preprocessRegex.
  destruct (regexWithFlags regex) as [[p f]|] eqn:E; simpl; [|reflexivity].
  split; [now apply regexWithFlags_sound|].
  split; [now apply regexWithFlags_nonempty in E|].
  now apply regexWithFlags_parts in E.
Qed.

Lemma isFlag_plain (c : ascii) :
  isFlag c = true -> isLineTerminator c = false /\ Ascii.eqb c "/" = false.
Proof.
  unfold isFlag. rewrite !orb_true_iff, !Ascii.eqb_eq.
  intros [[[[-> | ->] | ->] | ->] | ->]; split; reflexivity.
Qed.

Lemma closing_flags (f : string) : allFlags f = true -> closing f = None.
Proof.
  induction f as [|c r IH]; simpl; [reflexivity|].
  intros H. apply andb_true_iff in H as [Hc Hr].
  destruct (isFlag_plain c Hc) as [-> ->]. now rewrite (IH Hr).
Qed.

Lemma closing_complete (p f : string) :
  (forall c, In c (list_ascii_of_string p) -> isLineTerminator c = false) ->
  allFlags f = true ->
  closing (p ++ String "/" f)%string = Some (p, f).
Proof.
  intros Hp Hf. induction p as [|c p IH]; simpl.
  - now rewrite (closing_flags f Hf), Hf.
  - rewrite (Hp c (or_introl eq_refl)), IH; [reflexivity|].
    intros d Hd. apply Hp. now right.
Qed.

Lemma regexWithFlags_no_slash (s : string) :
  (forall c, In c (list_ascii_of_string s) -> c <> "/"%char) ->
  regexWithFlags s = None.
Proof.
  induction s as [|c r IH]; intros H; simpl; [reflexivity|].
  destruct (Ascii.eqb_spec c "/") as [E|_].
  - now destruct (H c (or_introl eq_refl)).
  - apply IH. intros d Hd. apply H. now right.
Qed.

(** X16.  A regular-expression literal is read back: for a non-empty
    pattern [p] without line terminator and flags [f] among g, i, m, u, y,
    the text made of a slash, [p], a slash and [f] gives the pattern [p]
    and the flags [f], whatever slashes [p] holds and whatever slash-free
    text comes before the first slash.  A text without any slash is a
    pattern without flags. *)
Theorem preprocessRegex_literal :
  (forall before p f,
      (forall c, In c (list_ascii_of_string before) -> c <> "/"%char) ->
      p <> EmptyString ->
      (forall c, In c (list_ascii_of_string p) ->
                 isLineTerminator c = false) ->
      allFlags f = true ->
      preprocessRegex (before ++ String "/" (p ++ String "/" f))%string
      = {| pattern := p; flags := Some f |}) /\
  (forall regex,
      (forall c, In c (list_ascii_of_string regex) -> c <> "/"%char) ->
      preprocessRegex regex = {| pattern := regex; flags := None |}).
Proof.
  split.
  - intros before p f Hb Hne Hp Hf. unfold preprocessRegex.
    assert (E : regexWithFlags (before ++ String "/" (p ++ String "/" f))%string
                = Some (p, f)).
    { induction before as [|c b IH]; simpl.
      - rewrite (closing_complete p f Hp Hf). now destruct p.
      - destruct (Ascii.eqb_spec c "/") as [E|_].
        + now destruct (Hb c (or_introl eq_refl)).
        + apply IH. intros d Hd. apply Hb. now right. }
    now rewrite E.
  - intros regex H. unfold preprocessRegex.
    now rewrite (regexWithFlags_no_slash regex H).
Qed.

End PreprocessRegex.

(** ** [levenshtein] *)

(** One row of the matrix from the row above: the length of the row, and
    each cell as the minimum the code takes. *)
Lemma nextRow_spec (c : ascii) :
  forall str2 above left,
    List.length above = S (List.length str2) ->
    List.length (Part000.nextRow c str2 above left) = List.length str2 /\
    forall j,
      j < List.length str2 ->
      List.nth j (Part000.nextRow c str2 above left) 0
      = Nat.min
          (Nat.min (List.nth (S j) above 0 + 1)
                   (List.nth j (left :: Part000.nextRow c str2 above left) 0
                    + 1))
          (List.nth j above 0
           + (if Ascii.eqb c (List.nth j str2 "000"%char) then 0 else 1)).
Proof.
  induction str2 as [|d str2 IH]; intros above left Hlen.
  - split; [reflexivity|]. intros j Hj. inversion Hj.
  - destruct above as [|diag [|up rest]]; try discriminate Hlen.
    assert (Hlen' : List.length (up :: rest) = S (List.length str2))
      by (simpl in *; lia).
    clear Hlen. rename Hlen' into Hlen.
    destruct (IH (up :: rest)
                 (Nat.min (Nat.min (up + 1) (left + 1))
                          (diag + (if Ascii.eqb c d then 0 else 1))) Hlen)
      as [IHlen IHnth].
    split.
    + simpl. now rewrite IHlen.
    + intros [|j] Hj; [reflexivity|].
      simpl in Hj. apply PeanoNat.lt_S_n in Hj.
      cbn [Part000.nextRow List.nth]. exact (IHnth j Hj).
Qed.

(** The matrix as an induction principle: a property [Q done j cell] of the
    consumed prefix of [str1], the column and the cell that holds on the
    first row and the first column and that the minimum preserves holds of
    every cell of the last row. *)
Section Matrix.

Variable str2 : list ascii.
Variable Q : list ascii -> nat -> nat -> Prop.

Hypothesis first_row : forall j, j <= List.length str2 -> Q [] j j.
Hypothesis first_column :
  forall done c, Q (done ++ [c]) 0 (S (List.length done)).
Hypothesis cell :
  forall done c j up left diag,
    j < List.length str2 ->
    Q done (S j) up -> Q (done ++ [c]) j left -> Q done j diag ->
    Q (done ++ [c]) (S j)
      (Nat.min (Nat.min (up + 1) (left + 1))
               (diag
                + (if Ascii.eqb c (List.nth j str2 "000"%char) then 0 else 1))).

Lemma rows_invariant :
  forall str1 done above,
    List.length above = S (List.length str2) ->
    (forall j, j <= List.length str2 -> Q done j (List.nth j above 0)) ->
    let row := Part000.rows str1 str2 (List.length done) above in
    List.length row = S (List.length str2) /\
    forall j, j <= List.length str2 -> Q (done ++ str1) j (List.nth j row 0).
Proof.
  induction str1 as [|c str1 IH]; intros done above Hlen Habove.
  - simpl. rewrite List.app_nil_r. auto.
  - cbn [Part000.rows].
    destruct (nextRow_spec c str2 above (S (List.length done)) Hlen)
      as [Nlen Nnth].
    specialize (IH (done ++ [c])
                   (S (List.length done)
                    :: Part000.nextRow c str2 above (S (List.length done)))).
    rewrite List.length_app, Nat.add_1_r in IH. simpl List.length in IH.
    rewrite <- List.app_assoc in IH. simpl in IH.
    apply IH; [now rewrite Nlen|].
    intros j. induction j as [|j IHj]; intros Hj.
    + apply first_column.
    + cbn [List.nth]. rewrite (Nnth j Hj).
      apply cell; auto with arith.
Qed.

Lemma levenshtein_invariant (str1 : list ascii) :
  Q str1 (List.length str2)
    (List.nth (List.length str2)
       (Part000.rows str1 str2 0 (List.seq 0 (S (List.length str2)))) 0).
Proof.
  destruct (rows_invariant str1 [] (List.seq 0 (S (List.length str2))))
    as [_ H].
  - apply List.length_seq.
  - intros j Hj. rewrite List.seq_nth by lia. now apply first_row.
  - now apply H.
Qed.

End Matrix.

Lemma levenshtein_unfold (str1 str2 : string) :
  Part000.levenshtein str1 str2
  = List.nth (List.length (list_ascii_of_string str2))
      (Part000.rows (list_ascii_of_string str1) (list_ascii_of_string str2) 0
         (List.seq 0 (S (List.length (list_ascii_of_string str2))))) 0.
Proof.
  unfold Part000.levenshtein. now rewrite length_list_ascii_of_string.
Qed.

(** X17.  The distance lies between the difference of the two lengths and
    the greater of them, so that [maxLength - distancia] is never
    negative. *)
Theorem levenshtein_bounds :
  forall str1 str2,
    String.length str1 - String.length str2
    <= Part000.levenshtein str1 str2 /\
    String.length str2 - String.length str1
    <= Part000.levenshtein str1 str2 /\
    Part000.levenshtein str1 str2
    <= Nat.max (String.length str1) (String.length str2).
Proof.
  intros str1 str2. rewrite levenshtein_unfold.
  rewrite <- (length_list_ascii_of_string str1),
          <- (length_list_ascii_of_string str2).
  apply (levenshtein_invariant (list_ascii_of_string str2)
           (fun done j v =>
              List.length done - j <= v /\ j - List.length done <= v /\
              v <= Nat.max (List.length done) j)).
  - intros j _. simpl. lia.
  - intros done c. rewrite List.length_app. simpl. lia.
  - intros done c j up left diag _ Hup Hleft Hdiag.
    rewrite List.length_app in *. cbn [List.length] in *.
    destruct (Ascii.eqb c _); lia.
Qed.

Lemma firstn_snoc {A : Type} (d : A) (l : list A) (j : nat) :
  j < List.length l ->
  List.firstn (S j) l = List.firstn j l ++ [List.nth j l d].
Proof.
  revert j. induction l as [|x l IH]; intros j Hj; [inversion Hj|].
  destruct j as [|j]; [reflexivity|].
  simpl in Hj. apply PeanoNat.lt_S_n in Hj.
  change (x :: List.firstn (S j) l
          = x :: (List.firstn j l ++ [List.nth j l d])).
  f_equal. exact (IH j Hj).
Qed.

(** X18.  The distance is zero exactly between equal strings. *)
Theorem levenshtein_zero_iff :
  forall str1 str2, Part000.levenshtein str1 str2 = 0 <-> str1 = str2.
Proof.
  intros str1 str2. rewrite levenshtein_unfold.
  assert (H : List.nth (List.length (list_ascii_of_string str2))
                (Part000.rows (list_ascii_of_string str1)
                   (list_ascii_of_string str2) 0
                   (List.seq 0 (S (List.length (list_ascii_of_string str2)))))
                0 = 0 <->
              list_ascii_of_string str1
              = List.firstn (List.length (list_ascii_of_string str2))
                            (list_ascii_of_string str2)).
  { apply (levenshtein_invariant (list_ascii_of_string str2)
             (fun done j v =>
                v = 0 <-> done = List.firstn j (list_ascii_of_string str2))).
    - intros j Hj. split; [now intros ->|].
      destruct j as [|j]; [reflexivity|].
      destruct (list_ascii_of_string str2); [inversion Hj|discriminate].
    - intros done c. split; [discriminate|].
      simpl. intros E. now destruct done.
    - intros done c j up left diag Hj _ _ Hdiag.
      rewrite (firstn_snoc "000"%char _ j Hj).
      destruct (Ascii.eqb_spec c
                  (List.nth j (list_ascii_of_string str2) "000"%char))
        as [E|E].
      + split.
        * intros H. assert (diag = 0) as D by lia.
          apply Hdiag in D. now rewrite D, E.
        * intros H. apply List.app_inj_tail in H as [H _].
          apply Hdiag in H. lia.
      + split; [lia|].
        intros H. apply List.app_inj_tail in H as [_ H]. congruence. }
  rewrite H, List.firstn_all. split.
  - intros E. rewrite <- (string_of_list_ascii_of_string str1), E.
    apply string_of_list_ascii_of_string.
  - now intros ->.
Qed.

(** X19.  Against the empty string the distance is the length of the other
    string, on either side. *)
Theorem levenshtein_empty_side :
  forall s,
    Part000.levenshtein EmptyString s = String.length s /\
    Part000.levenshtein s EmptyString = String.length s.
Proof.
  intros s. split; [|apply levenshtein_empty].
  unfold Part000.levenshtein. cbn [list_ascii_of_string Part000.rows].
  rewrite List.seq_nth by lia. reflexivity.
Qed.

(** ** The similarity scores and the loop over the candidates *)

Lemma lookup_increment (c d : ascii) (bag : Packages.Bag) :
  Packages.lookup c (Packages.increment d bag)
  = if Ascii.eqb d c
    then Some match Packages.lookup c bag with
              | Some n => n + 1
              | None => 1
              end
    else Packages.lookup c bag.
Proof.
  induction bag as [|[k n] r IH]; simpl.
  - reflexivity.
  - destruct (Ascii.eqb_spec k d) as [->|Hkd]; simpl.
    + destruct (Ascii.eqb d c); reflexivity.
    + destruct (Ascii.eqb_spec k c) as [->|Hkc].
      * destruct (Ascii.eqb_spec d c) as [->|_]; congruence.
      * exact IH.
Qed.

Lemma lookup_fold_increment (c : ascii) :
  forall l bag,
    Packages.lookup c
      (List.fold_left (fun bag char => Packages.increment char bag) l bag)
    = match List.count_occ ascii_dec l c with
      | 0 => Packages.lookup c bag
      | S n => Some (S n + match Packages.lookup c bag with
                           | Some m => m
                           | None => 0
                           end)
      end.
Proof.
  induction l as [|d l IH]; intros bag; [reflexivity|].
  cbn [List.fold_left List.count_occ]. rewrite IH, lookup_increment.
  destruct (ascii_dec d c) as [->|Hdc].
  - rewrite Ascii.eqb_refl.
    destruct (List.count_occ ascii_dec l c), (Packages.lookup c bag);
      f_equal; lia.
  - destruct (Ascii.eqb_spec d c) as [E|_]; [congruence|reflexivity].
Qed.

(** X20.  [getBagOfNumbers] counts: the bag of a string maps a character
    to the number of its occurrences in the lower-cased string, and holds
    no entry for a character that does not occur. *)
Theorem getBagOfNumbers_counts :
  forall (rt : JSRuntime) (str : string) (char : ascii),
    Packages.lookup char (Packages.getBagOfNumbers str)
    = match List.count_occ ascii_dec
              (list_ascii_of_string (toLowerCase str)) char with
      | 0 => None
      | S n => Some (S n)
      end.
Proof.
  intros rt str char. unfold Packages.getBagOfNumbers.
  rewrite lookup_fold_increment. simpl.
  destruct (List.count_occ _ _ _); [reflexivity|]. f_equal. lia.
Qed.

(** The loop keeps what no candidate exceeds. *)
Lemma loop_monotone (score : string -> number) (x : number) :
  forall values m,
    gt x m = false ->
    gt x (List.fold_left
            (fun maxSimilarity val =>
               let similarity := score val in
               if gt similarity maxSimilarity then similarity
               else maxSimilarity)
            values m) = false.
Proof.
  induction values as [|v vs IH]; intros m Hm; [exact Hm|].
  cbn [List.fold_left]. apply IH. cbv zeta.
  destruct (gt (score v) m) eqn:E; [|exact Hm].
  destruct (gt x (score v)) eqn:Ex; [|reflexivity].
  pose proof (gt_trans _ _ _ Ex E). congruence.
Qed.

Lemma loop_result (score : string -> number) :
  forall values m,
    isNaN m = false ->
    let result :=
      List.fold_left
        (fun maxSimilarity val =>
           let similarity := score val in
           if gt similarity maxSimilarity then similarity
           else maxSimilarity)
        values m in
    isNaN result = false /\
    (result = m \/ exists c, In c values /\ result = score c) /\
    (forall c, In c values -> gt (score c) result = false).
Proof.
  induction values as [|v vs IH]; intros m Hm; cbn [List.fold_left].
  - repeat split; auto. intros c [].
  - cbv zeta.
    assert (Hm' : isNaN (if gt (score v) m then score v else m) = false).
    { destruct (gt (score v) m) eqn:E; [|exact Hm].
      eapply gt_not_NaN; eassumption. }
    destruct (IH _ Hm') as (Hnan & Hres & Hmax).
    split; [exact Hnan|]. split.
    + destruct Hres as [Hres|(c & Hc & Hres)].
      * destruct (gt (score v) m); [|now left].
        right. exists v. split; [now left|exact Hres].
      * right. exists c. split; [now right|exact Hres].
    + intros c [<-|Hc]; [|now apply Hmax].
      apply loop_monotone.
      destruct (gt (score v) m) eqn:E; [apply gt_irrefl|exact E].
Qed.

(** X21.  After the loop of STRING_SIMILARITY, in both variants,
    [maxSimilarity] is not NaN; it is 0 or the score of a candidate; and no
    candidate has a score that exceeds it. *)
Theorem maxSimilarityOf_is_maximum :
  forall (rt : JSRuntime) (inputValue : string) (values : list string),
    (isNaN (Packages.maxSimilarityOf inputValue values) = false /\
     (Packages.maxSimilarityOf inputValue values = zero \/
      exists c,
        In c values /\
        Packages.maxSimilarityOf inputValue values
        = Packages.compareStringsBagOfNumbers inputValue c) /\
     (forall c,
         In c values ->
         gt (Packages.compareStringsBagOfNumbers inputValue c)
            (Packages.maxSimilarityOf inputValue values) = false)) /\
    (isNaN (Part000.maxSimilarityOf inputValue values) = false /\
     (Part000.maxSimilarityOf inputValue values = zero \/
      exists c,
        In c values /\
        Part000.maxSimilarityOf inputValue values
        = Part000.compareStringsBagOfNumbers inputValue c) /\
     (forall c,
         In c values ->
         gt (Part000.compareStringsBagOfNumbers inputValue c)
            (Part000.maxSimilarityOf inputValue values) = false)).
Proof.
  intros rt inputValue values. split.
  - exact (loop_result (Packages.compareStringsBagOfNumbers inputValue)
             values zero eq_refl).
  - exact (loop_result (Part000.compareStringsBagOfNumbers inputValue)
             values zero eq_refl).
Qed.

Section Similarity.

Context {rt : JSRuntime} {co : Collaborators}.

Lemma Packages_similarity_eq (variables : list Variable_) (vid : string)
  (text : option string) (i v : string) :
  vid <> EmptyString ->
  inputValueOf variables vid = VString i ->
  valueOf variables text = VString v ->
  Packages.executeComparison variables
    {| variableId := Some vid; comparisonOperator := Some STRING_SIMILARITY;
       comparisonValue := text |}
  = Normal (gt (Packages.maxSimilarityOf i (JSString.split "|" v)) lit_0_5).
Proof.
  intros Hvid Hi Hv. destruct (nonempty_String vid Hvid) as (c & r & ->).
  unfold Packages.executeComparison;
    cbn [variableId comparisonOperator comparisonValue].
  now rewrite Hi, Hv.
Qed.

Lemma Part000_similarity_eq (variables : list Variable_) (vid : string)
  (text : option string) (i v : string) :
  vid <> EmptyString ->
  inputValueOf variables vid = VString i ->
  valueOf variables text = VString v ->
  Part000.executeComparison variables
    {| variableId := Some vid; comparisonOperator := Some STRING_SIMILARITY;
       comparisonValue := text |}
  = Normal (gt (Part000.maxSimilarityOf i (JSString.split "|" v)) lit_0_8).
Proof.
  intros Hvid Hi Hv. destruct (nonempty_String vid Hvid) as (c & r & ->).
  unfold Part000.executeComparison;
    cbn [variableId comparisonOperator comparisonValue].
  rewrite Hi, Hv. f_equal. unfold Part000.compararValores.
  destruct v as [|a v']; [|reflexivity].
  cbn [JSString.falsy]. rewrite split_empty.
  unfold Part000.maxSimilarityOf. cbn [List.fold_left].
  destruct (gt _ zero); [symmetry; apply Part000_score_empty|reflexivity].
Qed.

Lemma Part000_score_empty_input (c : string) :
  gt (Part000.compareStringsBagOfNumbers EmptyString c) lit_0_8 = false.
Proof.
  unfold Part000.compareStringsBagOfNumbers.
  assert (E : Part000.levenshtein EmptyString c = String.length c).
  { unfold Part000.levenshtein. cbn [list_ascii_of_string Part000.rows].
    rewrite List.seq_nth by lia. reflexivity. }
  rewrite E. cbn [String.length Nat.max].
  generalize (ofNat (String.length c)). intros x.
  destruct x as [[|]|[|]| |s m e]; try reflexivity.
  unfold div, SFsub. rewrite Z.sub_diag. reflexivity.
Qed.

Lemma magnitude_of_zeros (g : ascii -> number) (l : list ascii) :
  (forall c, g c = zero) ->
  List.fold_left (fun sum val => add sum (mul val val)) (List.map g l) zero
  = zero.
Proof.
  intros Hg. induction l as [|c l IH]; [reflexivity|].
  cbn [List.map List.fold_left]. rewrite Hg. exact IH.
Qed.

(** The cosine score is 0 as soon as one string lower-cases to the empty
    string. *)
Lemma Packages_score_empty (str1 str2 : string) :
  toLowerCase str1 = EmptyString \/ toLowerCase str2 = EmptyString ->
  Packages.compareStringsBagOfNumbers str1 str2 = zero.
Proof.
  intros H. unfold Packages.compareStringsBagOfNumbers. cbv zeta.
  destruct H as [H|H].
  - unfold Packages.getBagOfNumbers at 1 3. rewrite H.
    cbn [list_ascii_of_string List.fold_left].
    rewrite magnitude_of_zeros by reflexivity. reflexivity.
  - unfold Packages.getBagOfNumbers at 2 4. rewrite H.
    cbn [list_ascii_of_string List.fold_left].
    rewrite (magnitude_of_zeros
               (fun char => match Packages.lookup char [] with
                            | Some n => ofNat n
                            | None => zero
                            end)) by reflexivity.
    change (JSNumber.strictEq (sqrt zero) zero) with true.
    now rewrite orb_true_r.
Qed.

Lemma loop_of_low_scores (score : string -> number) (t : number)
  (values : list string) :
  gt zero t = false ->
  (forall c, In c values -> gt (score c) t = false) ->
  gt (List.fold_left
        (fun maxSimilarity val =>
           let similarity := score val in
           if gt similarity maxSimilarity then similarity
           else maxSimilarity)
        values zero) t = false.
Proof.
  intros Hz Hlow.
  destruct (gt (List.fold_left _ values zero) t) eqn:E; [|reflexivity].
  apply maxSimilarity_exceeds in E; [|reflexivity].
  destruct E as [E|(c & Hc & E)]; [congruence|].
  rewrite (Hlow c Hc) in E. discriminate E.
Qed.

Lemma split_one_of_empty (sep : ascii) (c : string) :
  In c (JSString.split sep EmptyString) -> c = EmptyString.
Proof. intros [<-|[]]. reflexivity. Qed.

(** X22.  STRING_SIMILARITY is false when the input or the target is the
    empty string: in the part_000 variant always, in the packages variant
    in an engine whose [toLowerCase] maps the empty string to itself. *)
Theorem STRING_SIMILARITY_false_on_empty_string :
  forall variables vid text i v,
    vid <> EmptyString ->
    inputValueOf variables vid = VString i ->
    valueOf variables text = VString v ->
    i = EmptyString \/ v = EmptyString ->
    Part000.executeComparison variables
      {| variableId := Some vid; comparisonOperator := Some STRING_SIMILARITY;
         comparisonValue := text |} = Normal false /\
    (toLowerCase EmptyString = EmptyString ->
     Packages.executeComparison variables
       {| variableId := Some vid; comparisonOperator := Some STRING_SIMILARITY;
          comparisonValue := text |} = Normal false).
Proof.
  intros variables vid text i v Hvid Hi Hv Hempty.
  rewrite (Part000_similarity_eq variables vid text i v Hvid Hi Hv).
  rewrite (Packages_similarity_eq variables vid text i v Hvid Hi Hv).
  split; [|intros Hlower]; f_equal.
  - apply loop_of_low_scores; [reflexivity|]. intros c Hc.
    destruct Hempty as [-> | ->].
    + apply Part000_score_empty_input.
    + apply split_one_of_empty in Hc. subst c. apply Part000_score_empty.
  - apply loop_of_low_scores; [reflexivity|]. intros c Hc.
    rewrite Packages_score_empty; [reflexivity|].
    destruct Hempty as [-> | ->]; [now left|].
    apply split_one_of_empty in Hc. subst c. now right.
Qed.

Lemma split_nonempty (sep : ascii) (s : string) :
  exists h t, JSString.split sep s = h :: t.
Proof.
  destruct s as [|c r]; simpl; [eauto|].
  destruct (Ascii.eqb c sep); [eauto|].
  destruct (JSString.split sep r); eauto.
Qed.

Lemma split_append (sep : ascii) (v w : string) :
  JSString.split sep (v ++ String sep w)%string
  = JSString.split sep v ++ JSString.split sep w.
Proof.
  induction v as [|c r IH]; simpl.
  - now rewrite Ascii.eqb_refl.
  - rewrite IH. destruct (Ascii.eqb c sep); [reflexivity|].
    destruct (split_nonempty sep r) as (h & t & ->). reflexivity.
Qed.

(** X23.  One more alternative never loses a match: if STRING_SIMILARITY
    is true for the target [v], it is true for [v], "|" and [w] and for
    [w], "|" and [v], in both variants. *)
Theorem STRING_SIMILARITY_more_candidates :
  forall variables vid text text' i v w,
    vid <> EmptyString ->
    inputValueOf variables vid = VString i ->
    valueOf variables text = VString v ->
    valueOf variables text' = VString (v ++ String "|" w)%string \/
    valueOf variables text' = VString (w ++ String "|" v)%string ->
    (Packages.executeComparison variables
       {| variableId := Some vid; comparisonOperator := Some STRING_SIMILARITY;
          comparisonValue := text |} = Normal true ->
     Packages.executeComparison variables
       {| variableId := Some vid; comparisonOperator := Some STRING_SIMILARITY;
          comparisonValue := text' |} = Normal true) /\
    (Part000.executeComparison variables
       {| variableId := Some vid; comparisonOperator := Some STRING_SIMILARITY;
          comparisonValue := text |} = Normal true ->
     Part000.executeComparison variables
       {| variableId := Some vid; comparisonOperator := Some STRING_SIMILARITY;
          comparisonValue := text' |} = Normal true).
Proof.
  intros variables vid text text' i v w Hvid Hi Hv Hv'.
  rewrite (Packages_similarity_eq variables vid text i v Hvid Hi Hv).
  rewrite (Part000_similarity_eq variables vid text i v Hvid Hi Hv).
  assert (Hin : forall c,
             In c (JSString.split "|" v) ->
             exists v', valueOf variables text' = VString v' /\
                        In c (JSString.split "|" v')).
  { intros c Hc. destruct Hv' as [E|E]; eexists; (split; [exact E|]);
      rewrite split_append; apply List.in_or_app; auto. }
  unfold Packages.maxSimilarityOf, Part000.maxSimilarityOf.
  split; intros [= H]; apply maxSimilarity_exceeds in H; try reflexivity;
    destruct H as [H|(c & Hc & H)]; try discriminate H;
    destruct (Hin c Hc) as (v' & Ev' & Hc').
  - rewrite (Packages_similarity_eq variables vid text' i v' Hvid Hi Ev').
    f_equal. apply maxSimilarity_exceeds; [reflexivity|]. right. eauto.
  - rewrite (Part000_similarity_eq variables vid text' i v' Hvid Hi Ev').
    f_equal. apply maxSimilarity_exceeds; [reflexivity|]. right. eauto.
Qed.

End Similarity.

(** ** The two variants on the other operators *)

(** X24.  On a condition none of whose comparisons is a
    STRING_SIMILARITY the two variants give the same outcome, boolean or
    exception, for every logical operator and all bindings. *)
Theorem variants_agree_on_other_operators :
  forall (rt : JSRuntime) (co : Collaborators) condition variables,
    (forall cs c,
        comparisons condition = Some cs -> In c cs ->
        comparisonOperator c <> Some STRING_SIMILARITY) ->
    Packages.executeCondition condition variables
    = Part000.executeCondition condition variables.
Proof.
  intros rt co [lo [cs|]] variables H; [|reflexivity].
  unfold Packages.executeCondition, Part000.executeCondition.
  cbn [comparisons logicalOperator] in *.
  assert (E : forall c,
             In c cs ->
             Packages.executeComparison variables c
             = Part000.executeComparison variables c)
    by (intros c Hc; apply executeComparison_agree; eauto).
  destruct lo as [[|]|]; auto using every_ext, some_ext.
Qed.

(** ** The further properties at concrete inputs *)

Module ExtraWitness.

Import Examples.

Lemma compare_empty_array_witness :
  (VList [] = VList [] \/ VString "[" = VList []) /\
  compare (matchesRegex (rt := Reference.runtime))
          (VList []) (VString "[") Some_ = Normal false.
Proof.
  split; [left; reflexivity|].
  exact (compare_empty_array
           (matchesRegex (rt := Reference.runtime))
           (VList []) (VString "[") Some_ (or_introl eq_refl)).
Defined.

Lemma NOT_EQUAL_negates_EQUAL_witness :
  "v" <> EmptyString /\
  (forall l, inputValueOf (bindings (VString "42")) "v" <> VList l) /\
  (forall l,
      valueOf (co := Reference.collaborators)
        (bindings (VString "42")) (Some "42") <> VList l) /\
  exists b,
    Packages.executeComparison
      (rt := Reference.runtime) (co := Reference.collaborators)
      (bindings (VString "42")) (comparisonOf "v" EQUAL "42") = Normal b /\
    Packages.executeComparison
      (rt := Reference.runtime) (co := Reference.collaborators)
      (bindings (VString "42")) (comparisonOf "v" NOT_EQUAL "42")
    = Normal (negb b).
Proof.
  assert (Hi : forall l,
             inputValueOf (bindings (VString "42")) "v" <> VList l)
    by (intros l; discriminate).
  assert (Hv : forall l,
             valueOf (co := Reference.collaborators)
               (bindings (VString "42")) (Some "42") <> VList l)
    by (intros l; discriminate).
  split; [exact Witness.v_nonempty|]. split; [exact Hi|]. split; [exact Hv|].
  exact (NOT_EQUAL_negates_EQUAL_on_scalars
           (rt := Reference.runtime) (co := Reference.collaborators)
           (bindings (VString "42")) "v" (Some "42")
           Witness.v_nonempty Hi Hv).
Defined.

Lemma NOT_CONTAINS_negates_CONTAINS_witness :
  "v" <> EmptyString /\
  (forall l, inputValueOf (bindings (VString "Hello")) "v" <> VList l) /\
  (forall l,
      valueOf (co := Reference.collaborators)
        (bindings (VString "Hello")) (Some "null") <> VList l) /\
  exists b,
    Packages.executeComparison
      (rt := Reference.runtime) (co := Reference.collaborators)
      (bindings (VString "Hello")) (comparisonOf "v" CONTAINS "null")
    = Normal b /\
    Packages.executeComparison
      (rt := Reference.runtime) (co := Reference.collaborators)
      (bindings (VString "Hello")) (comparisonOf "v" NOT_CONTAINS "null")
    = Normal (negb b) /\
    (JSString.falsy (Some "Hello") = true \/ JSString.falsy None = true ->
     b = false).
Proof.
  assert (Hi : forall l,
             inputValueOf (bindings (VString "Hello")) "v" <> VList l)
    by (intros l; discriminate).
  assert (Hv : forall l,
             valueOf (co := Reference.collaborators)
               (bindings (VString "Hello")) (Some "null") <> VList l)
    by (intros l; discriminate).
  split; [exact Witness.v_nonempty|]. split; [exact Hi|]. split; [exact Hv|].
  exact (NOT_CONTAINS_negates_CONTAINS_on_scalars
           (rt := Reference.runtime) (co := Reference.collaborators)
           (bindings (VString "Hello")) "v" (Some "null")
           Witness.v_nonempty Hi Hv).
Defined.

Lemma NOT_CONTAINS_on_string_arrays_witness :
  "v" <> EmptyString /\
  inputValueOf (bindings (VList [Some "x"; Some "y"])) "v"
  = VList (List.map Some ["x"; "y"]) /\
  valueOf (co := Reference.collaborators)
    (bindings (VList [Some "x"; Some "y"])) (Some "y") = VString "y" /\
  Packages.executeComparison
    (rt := Reference.runtime) (co := Reference.collaborators)
    (bindings (VList [Some "x"; Some "y"])) (comparisonOf "v" CONTAINS "y")
  = Normal true /\
  Packages.executeComparison
    (rt := Reference.runtime) (co := Reference.collaborators)
    (bindings (VList [Some "x"; Some "y"])) (comparisonOf "v" NOT_CONTAINS "y")
  = Normal false.
Proof.
  split; [exact Witness.v_nonempty|]. split; [reflexivity|].
  split; [reflexivity|].
  exact (NOT_CONTAINS_negates_CONTAINS_on_string_arrays
           (rt := Reference.runtime) (co := Reference.collaborators)
           (bindings (VList [Some "x"; Some "y"])) "v" (Some "y")
           ["x"; "y"] "y" Witness.v_nonempty eq_refl eq_refl).
Defined.

Lemma EQUAL_symmetric_witness :
  "v" <> EmptyString /\
  inputValueOf (bindings (VList [Some "a"])) "v"
  = valueOf (co := Reference.collaborators)
      [{| id := "v"; value := VString "a" |};
       {| id := "w"; value := VList [Some "a"] |}] (Some "w") /\
  valueOf (co := Reference.collaborators)
    (bindings (VList [Some "a"])) (Some "a")
  = inputValueOf [{| id := "v"; value := VString "a" |};
                  {| id := "w"; value := VList [Some "a"] |}] "v" /\
  Packages.executeComparison
    (rt := Reference.runtime) (co := Reference.collaborators)
    (bindings (VList [Some "a"])) (comparisonOf "v" EQUAL "a")
  = Packages.executeComparison
      (rt := Reference.runtime) (co := Reference.collaborators)
      [{| id := "v"; value := VString "a" |};
       {| id := "w"; value := VList [Some "a"] |}]
      (comparisonOf "v" EQUAL "w").
Proof.
  split; [exact Witness.v_nonempty|]. split; [reflexivity|].
  split; [reflexivity|].
  exact (proj1
           (EQUAL_symmetric
              (rt := Reference.runtime) (co := Reference.collaborators)
              (bindings (VList [Some "a"])) "v" (Some "a")
              [{| id := "v"; value := VString "a" |};
               {| id := "w"; value := VList [Some "a"] |}] "v" (Some "w")
              Witness.v_nonempty Witness.v_nonempty eq_refl eq_refl)).
Defined.

Lemma STARTS_WITH_implies_CONTAINS_witness :
  "v" <> EmptyString /\
  Packages.executeComparison
    (rt := Reference.runtime) (co := Reference.collaborators)
    (bindings (VString "Hello World")) (comparisonOf "v" STARTS_WITH "hello")
  = Normal true /\
  Packages.executeComparison
    (rt := Reference.runtime) (co := Reference.collaborators)
    (bindings (VString "Hello World")) (comparisonOf "v" CONTAINS "hello")
  = Normal true.
Proof.
  split; [exact Witness.v_nonempty|]. split; [reflexivity|].
  exact (STARTS_WITH_ENDS_WITH_imply_CONTAINS
           (rt := Reference.runtime) (co := Reference.collaborators)
           (bindings (VString "Hello World")) "v" (Some "hello")
           "Hello World" "hello" Witness.v_nonempty eq_refl eq_refl
           (or_introl eq_refl)).
Defined.

Lemma GREATER_mirrors_LESS_witness :
  "v" <> EmptyString /\
  Packages.executeComparison
    (rt := Reference.runtime) (co := Reference.collaborators)
    (bindings (VString "10")) (comparisonOf "v" GREATER "2")
  = Packages.executeComparison
      (rt := Reference.runtime) (co := Reference.collaborators)
      (bindings (VString "2")) (comparisonOf "v" LESS "10").
Proof.
  split; [exact Witness.v_nonempty|].
  exact (proj1
           (GREATER_mirrors_LESS
              (rt := Reference.runtime) (co := Reference.collaborators)
              (bindings (VString "10")) "v" (Some "2")
              (bindings (VString "2")) "v" (Some "10")
              Witness.v_nonempty Witness.v_nonempty eq_refl eq_refl)).
Defined.

Lemma GREATER_LESS_exclusive_witness :
  "v" <> EmptyString /\
  Packages.executeComparison
    (rt := Reference.runtime) (co := Reference.collaborators)
    (bindings (VString "10")) (comparisonOf "v" GREATER "2") = Normal true /\
  Packages.executeComparison
    (rt := Reference.runtime) (co := Reference.collaborators)
    (bindings (VString "10")) (comparisonOf "v" LESS "2") = Normal false.
Proof.
  split; [exact Witness.v_nonempty|]. split; [reflexivity|].
  exact (GREATER_LESS_exclusive
           (rt := Reference.runtime) (co := Reference.collaborators)
           (bindings (VString "10")) "v" (Some "2")
           Witness.v_nonempty eq_refl).
Defined.

Lemma regex_operators_false_on_empty_side_witness :
  "v" <> EmptyString /\
  Packages.executeComparison
    (rt := Reference.runtime) (co := Reference.collaborators)
    (bindings (VString "")) (comparisonOf "v" MATCHES_REGEX "[")
  = Normal false /\
  Packages.executeComparison
    (rt := Reference.runtime) (co := Reference.collaborators)
    (bindings (VString "")) (comparisonOf "v" NOT_MATCH_REGEX "[")
  = Normal false.
Proof.
  split; [exact Witness.v_nonempty|].
  apply (regex_operators_false_on_empty_side
           (rt := Reference.runtime) (co := Reference.collaborators)
           (bindings (VString "")) "v" (Some "[") Witness.v_nonempty).
  - intros l. discriminate.
  - intros l. discriminate.
  - reflexivity.
Defined.

Lemma executeCondition_AND_witness :
  let cs := [comparisonOf "v" EQUAL "42"; comparisonOf "v" IS_SET ""] in
  (forall c,
      In c cs ->
      exists b,
        Packages.executeComparison
          (rt := Reference.runtime) (co := Reference.collaborators)
          (bindings (VString "42")) c = Normal b) /\
  (Packages.executeCondition
     (rt := Reference.runtime) (co := Reference.collaborators)
     {| logicalOperator := Some AND; comparisons := Some cs |}
     (bindings (VString "42")) = Normal true <->
   forall c,
     In c cs ->
     Packages.executeComparison
       (rt := Reference.runtime) (co := Reference.collaborators)
       (bindings (VString "42")) c = Normal true).
Proof.
  intros cs.
  assert (H : forall c,
             In c cs ->
             exists b,
               Packages.executeComparison
                 (rt := Reference.runtime) (co := Reference.collaborators)
                 (bindings (VString "42")) c = Normal b)
    by (intros c [<-|[<-|[]]]; eexists; reflexivity).
  split; [exact H|].
  exact (proj2 (proj2
           (executeCondition_AND
              (rt := Reference.runtime) (co := Reference.collaborators)
              cs (bindings (VString "42"))) H)).
Defined.

Lemma executeCondition_exceptions_witness :
  Packages.executeCondition
    (rt := Reference.runtime) (co := Reference.collaborators)
    (single NOT_MATCH_REGEX "(") (bindings (VString "12a"))
  = Throw SyntaxError /\
  exists cs c,
    comparisons (single NOT_MATCH_REGEX "(") = Some cs /\ In c cs /\
    ((SyntaxError = SyntaxError /\
      (comparisonOperator c = Some MATCHES_REGEX \/
       comparisonOperator c = Some NOT_MATCH_REGEX)) \/
     (SyntaxError = TypeError /\
      comparisonOperator c = Some STRING_SIMILARITY)).
Proof.
  split; [reflexivity|].
  exact (proj2
           (executeCondition_exceptions
              (rt := Reference.runtime) (co := Reference.collaborators)
              (single NOT_MATCH_REGEX "(") (bindings (VString "12a"))
              SyntaxError)
           eq_refl).
Defined.

Lemma valueOf_null_iff_witness :
  (Some "null" = Some "undefined" \/ Some "null" = Some "null") /\
  valueOf (co := Reference.collaborators) (bindings (VString "x"))
    (Some "null") = VNull.
Proof.
  split; [right; reflexivity|].
  exact (proj2
           (valueOf_null_iff (co := Reference.collaborators)
              (bindings (VString "x")) (Some "null"))
           (or_intror eq_refl)).
Defined.

Lemma inputValueOf_first_binding_witness :
  (forall w, In w [{| id := "u"; value := VString "0" |}] -> id w <> "v") /\
  inputValueOf
    ([{| id := "u"; value := VString "0" |}] ++
     {| id := "v"; value := VString "1" |}
     :: [{| id := "v"; value := VString "2" |}]) "v" = VString "1".
Proof.
  assert (H : forall w,
             In w [{| id := "u"; value := VString "0" |}] -> id w <> "v")
    by (intros w [<-|[]]; discriminate).
  split; [exact H|].
  exact (proj2 (inputValueOf_first_binding "v")
           [{| id := "u"; value := VString "0" |}]
           {| id := "v"; value := VString "1" |}
           [{| id := "v"; value := VString "2" |}] H eq_refl).
Defined.

Lemma preprocessRegex_literal_witness :
  "^[0-9]+$" <> EmptyString /\
  allFlags "i" = true /\
  preprocessRegex "/^[0-9]+$/i" = {| pattern := "^[0-9]+$"; flags := Some "i" |}.
Proof.
  assert (Hne : "^[0-9]+$" <> EmptyString) by discriminate.
  split; [exact Hne|]. split; [reflexivity|].
  refine (proj1 preprocessRegex_literal EmptyString "^[0-9]+$" "i"
            _ Hne _ eq_refl).
  - intros c [].
  - intros c Hc. simpl in Hc.
    repeat (destruct Hc as [<-|Hc]; [reflexivity|]). destruct Hc.
Defined.

Lemma levenshtein_zero_iff_witness :
  "Hello" = "Hello" /\ Part000.levenshtein "Hello" "Hello" = 0.
Proof.
  split; [reflexivity|].
  exact (proj2 (levenshtein_zero_iff "Hello" "Hello") eq_refl).
Defined.

Lemma maxSimilarityOf_is_maximum_witness :
  In "Hello" ["Hi"; "Hello"; "Hey"] /\
  gt (Part000.compareStringsBagOfNumbers "Hello" "Hello")
     (Part000.maxSimilarityOf "Hello" ["Hi"; "Hello"; "Hey"]) = false.
Proof.
  assert (H : In "Hello" ["Hi"; "Hello"; "Hey"]) by (right; left; reflexivity).
  split; [exact H|].
  exact (proj2 (proj2 (proj2
           (maxSimilarityOf_is_maximum Reference.runtime "Hello"
              ["Hi"; "Hello"; "Hey"]))) "Hello" H).
Defined.

Lemma STRING_SIMILARITY_false_on_empty_string_witness :
  "v" <> EmptyString /\
  (EmptyString = EmptyString \/ "Hi|Hey" = EmptyString) /\
  Reference.toLowerCase EmptyString = EmptyString /\
  Part000.executeComparison
    (rt := Reference.runtime) (co := Reference.collaborators)
    (bindings (VString "")) (comparisonOf "v" STRING_SIMILARITY "Hi|Hey")
  = Normal false /\
  Packages.executeComparison
    (rt := Reference.runtime) (co := Reference.collaborators)
    (bindings (VString "")) (comparisonOf "v" STRING_SIMILARITY "Hi|Hey")
  = Normal false.
Proof.
  split; [exact Witness.v_nonempty|]. split; [left; reflexivity|].
  split; [reflexivity|].
  destruct (STRING_SIMILARITY_false_on_empty_string
              (rt := Reference.runtime) (co := Reference.collaborators)
              (bindings (VString "")) "v" (Some "Hi|Hey") "" "Hi|Hey"
              Witness.v_nonempty eq_refl eq_refl (or_introl eq_refl))
    as [H0 H1].
  split; [exact H0|exact (H1 eq_refl)].
Defined.

Lemma STRING_SIMILARITY_more_candidates_witness :
  "v" <> EmptyString /\
  Part000.executeComparison
    (rt := Reference.runtime) (co := Reference.collaborators)
    (bindings (VString "Hello")) (comparisonOf "v" STRING_SIMILARITY "Hello")
  = Normal true /\
  Part000.executeComparison
    (rt := Reference.runtime) (co := Reference.collaborators)
    (bindings (VString "Hello")) (comparisonOf "v" STRING_SIMILARITY "Hi|Hello")
  = Normal true.
Proof.
  split; [exact Witness.v_nonempty|]. split; [reflexivity|].
  exact (proj2
           (STRING_SIMILARITY_more_candidates
              (rt := Reference.runtime) (co := Reference.collaborators)
              (bindings (VString "Hello")) "v" (Some "Hello")
              (Some "Hi|Hello") "Hello" "Hello" "Hi"
              Witness.v_nonempty eq_refl eq_refl (or_intror eq_refl))
           eq_refl).
Defined.

Lemma variants_agree_witness :
  let condition :=
    {| logicalOperator := Some OR;
       comparisons := Some [comparisonOf "v" MATCHES_REGEX "[";
                            comparisonOf "v" EQUAL "12a"] |} in
  (forall cs c,
      comparisons condition = Some cs -> In c cs ->
      comparisonOperator c <> Some STRING_SIMILARITY) /\
  Packages.executeCondition
    (rt := Reference.runtime) (co := Reference.collaborators)
    condition (bindings (VString "12a"))
  = Part000.executeCondition
      (rt := Reference.runtime) (co := Reference.collaborators)
      condition (bindings (VString "12a")).
Proof.
  intros condition.
  assert (H : forall cs c,
             comparisons condition = Some cs -> In c cs ->
             comparisonOperator c <> Some STRING_SIMILARITY).
  { intros cs c [= <-] [<-|[<-|[]]]; discriminate. }
  split; [exact H|].
  exact (variants_agree_on_other_operators
           Reference.runtime Reference.collaborators
           condition (bindings (VString "12a")) H).
Defined.

End ExtraWitness.
